(** * DatocmsImage: the lazy-loading strategy and the in-view tracker

    A shallow embedding of [src/Image/index.ts]: the module-level
    capability constants, the two strategy functions, the [useInView]
    composable with its mount and unmount hooks, the component ([props],
    [setup], [render]) that feeds them, the [h] adapter between the Vue 2
    and Vue 3 node data, and the tree of nodes [render] returns. *)

From Stdlib Require Import Bool List Ascii String DecimalString PrimFloat.
From Stdlib Require Import BinNat.
From Stdlib Require FloatOps FloatAxioms SpecFloat BinInt BinPos.
Import ListNotations.

(** ** JavaScript values, as far as the component looks at them *)

Module Js.

(** The values the component tests for truthiness: optional booleans,
    optional numbers (IEEE binary64, as in the language), strings and
    object references such as a constructor found on [window]. *)
Inductive Value : Type :=
| Undefined
| Null
| Boolean (b : bool)
| Number (x : float)
| Str (s : string)
| Object.

Definition isEmpty (s : string) : bool :=
  match s with
  | EmptyString => true
  | String _ _ => false
  end.

(** ToBoolean: [undefined], [null], [false], [+0], [-0], [NaN] and the
    empty string are falsy, everything else is truthy. *)
Definition truthy (v : Value) : bool :=
  match v with
  | Undefined | Null => false
  | Boolean b => b
  | Number x => negb (is_zero x || is_nan x)
  | Str s => negb (isEmpty s)
  | Object => true
  end.

(** [a || b] yields [a] itself when it is truthy, otherwise [b]. *)
Definition or (a b : Value) : Value := if truthy a then a else b.

(** [!a] *)
Definition not (a : Value) : bool := negb (truthy a).

(** An optional prop or field: absent reads as [undefined]. *)
Definition ofBoolean (o : option bool) : Value :=
  match o with
  | Some b => Boolean b
  | None => Undefined
  end.

Definition ofNumber (o : option float) : Value :=
  match o with
  | Some x => Number x
  | None => Undefined
  end.

(** Outcome of running a function body: it returns, or it throws. *)
Inductive Completion (A : Type) : Type :=
| Return (a : A)
| ThrowTypeError.

Arguments Return {A} a.
Arguments ThrowTypeError {A}.

End Js.

(** ** The global scope the module is loaded in *)

Module Env.

(** [window], when there is one, with its [IntersectionObserver]
    property ([undefined] in browsers that lack the API). *)
Record Window : Type := { IntersectionObserver : Js.Value }.

Record Global : Type := { window : option Window }.

Section Constants.
Variable global : Global.

(** [const isSsr = typeof window === "undefined"] *)
Definition isSsr : bool :=
  match window global with
  | None => true
  | Some _ => false
  end.

(** [const isIntersectionObserverAvailable =
       isSsr ? false : !!window.IntersectionObserver] *)
Definition isIntersectionObserverAvailable : bool :=
  if isSsr then false
  else
    match window global with
    | Some w => negb (Js.not (IntersectionObserver w))
    | None => false
    end.
End Constants.

Definition server : Global := {| window := None |}.

Definition browser : Global :=
  {| window := Some {| IntersectionObserver := Js.Object |} |}.

Definition legacyBrowser : Global :=
  {| window := Some {| IntersectionObserver := Js.Undefined |} |}.

End Env.

(** ** The two strategy functions *)

Module Strategy.

(** [type State = { lazyLoad?: boolean; inView: boolean; loaded: boolean }] *)
Record State : Type := {
  lazyLoad : option bool;
  inView : bool;
  loaded : bool
}.

Section WithGlobal.
Variable global : Env.Global.

Definition imageAddStrategy (s : State) : bool :=
  if Js.not (Js.ofBoolean (lazyLoad s)) then true
  else if Env.isSsr global then false
  else if Env.isIntersectionObserverAvailable global
       then inView s || loaded s
  else true.

Definition imageShowStrategy (s : State) : bool :=
  if Js.not (Js.ofBoolean (lazyLoad s)) then true
  else if Env.isSsr global then false
  else if Env.isIntersectionObserverAvailable global
       then loaded s
  else true.
End WithGlobal.

End Strategy.

(** ** The host's observation facility *)

Module Observer.

(** An opaque handle on a DOM element. *)
Definition Element : Type := nat.

(** [IntersectionObserverInit], the two options the component passes. *)
Record Init : Type := {
  threshold : Js.Value;
  rootMargin : Js.Value
}.

(** What the callback reads of an [IntersectionObserverEntry]. *)
Record Entry : Type := {
  target : Element;
  isIntersecting : bool
}.

(** Modelled from the spec: the viewport-observation facility of the
    host (the browser's [IntersectionObserver]), which the repository
    calls but does not define.  The spec gives it as "register callback
    + options -> notification; unregister": an observer owns the
    subscriptions it was asked for, the host notifies it about
    subscribed elements only, and releasing the subscription
    ([disconnect]) ends the notifications. *)
Record t : Type := {
  options : Init;
  observationTargets : list Element
}.

(** [new IntersectionObserver(callback, init)]: nothing observed yet. *)
Definition create (init : Init) : t :=
  {| options := init; observationTargets := [] |}.

Definition observes (o : t) (el : Element) : bool :=
  existsb (Nat.eqb el) (observationTargets o).

(** [o.observe(el)] *)
Definition observe (el : Element) (o : t) : t :=
  if observes o el then o
  else {| options := options o;
          observationTargets := observationTargets o ++ [el] |}.

(** [o.disconnect()] *)
Definition disconnect (o : t) : t :=
  {| options := options o; observationTargets := [] |}.

(** The entries the host hands to the observer's callback out of a batch
    of intersection changes: those about elements it still observes. *)
Definition queued (o : t) (changes : list Entry) : list Entry :=
  filter (fun e => observes o (target e)) changes.

End Observer.

(** ** [useInView] *)

Module UseInView.

Import Observer.

(** The three refs of the composable, together with the options its
    closures capture. *)
Record Refs : Type := {
  init : Init;
  observer : option Observer.t;
  elRef : option Element;
  inView : bool
}.

Definition setObserver (o : option Observer.t) (r : Refs) : Refs :=
  {| init := init r; observer := o; elRef := elRef r; inView := inView r |}.

Definition setElRef (el : option Element) (r : Refs) : Refs :=
  {| init := init r; observer := observer r; elRef := el;
     inView := inView r |}.

Definition setInView (b : bool) (r : Refs) : Refs :=
  {| init := init r; observer := observer r; elRef := elRef r;
     inView := b |}.

(** The state [useInView] starts from: [ref(null)], [ref(null)],
    [ref(false)]. *)
Definition useInView (i : Init) : Refs :=
  {| init := i; observer := None; elRef := None; inView := false |}.

(** The function handed to [new IntersectionObserver].  [entries[0]] of
    an empty array is [undefined], and reading a property of it throws. *)
Definition callback (r : Refs) (entries : list Entry)
  : Js.Completion Refs :=
  match entries with
  | [] => Js.ThrowTypeError
  | image :: _ =>
      if isIntersecting image then
        match observer r with
        | Some o =>
            Js.Return (setObserver (Some (disconnect o)) (setInView true r))
        | None => Js.Return r
        end
      else Js.Return r
  end.

Section WithGlobal.
Variable global : Env.Global.

(** The [onMounted] hook. *)
Definition onMounted (r : Refs) : Refs :=
  if Env.isIntersectionObserverAvailable global then
    let r' := setObserver (Some (create (init r))) r in
    match elRef r', observer r' with
    | Some el, Some o => setObserver (Some (observe el o)) r'
    | _, _ => r'
    end
  else r.

(** The [onBeforeUnmount] hook. *)
Definition onBeforeUnmount (r : Refs) : Refs :=
  if Env.isIntersectionObserverAvailable global then
    match observer r with
    | Some o => setObserver (Some (disconnect o)) r
    | None => r
    end
  else r.
End WithGlobal.

(** Modelled from the spec: the host delivering a batch of intersection
    changes.  It runs the callback of the tracker's observer on the
    entries about elements that observer is subscribed to, and does not
    run it when there are none. *)
Definition notify (r : Refs) (changes : list Entry) : Refs :=
  match observer r with
  | None => r
  | Some o =>
      match queued o changes with
      | [] => r
      | q =>
          match callback r q with
          | Js.Return r' => r'
          | Js.ThrowTypeError => r
          end
      end
  end.

End UseInView.

(** ** The component *)

Module Image.

Import Observer.

(** What a parent passes: every prop may be left out. *)
Record Attrs : Type := {
  attrIntersectionTreshold : option float;
  attrIntersectionThreshold : option float;
  attrIntersectionMargin : option string;
  attrLazyLoad : option bool
}.

(** The props as [setup] and [render] read them. *)
Record Props : Type := {
  intersectionTreshold : float;
  intersectionThreshold : option float;
  intersectionMargin : string;
  lazyLoad : bool
}.

Definition withDefault {A : Type} (o : option A) (d : A) : A :=
  match o with
  | Some a => a
  | None => d
  end.

(** The [props] declaration: [intersectionTreshold] defaults to [0],
    [intersectionMargin] to ["0px 0px 0px 0px"], [lazyLoad] to [true];
    [intersectionThreshold] has no default. *)
Definition props (a : Attrs) : Props :=
  {| intersectionTreshold := withDefault (attrIntersectionTreshold a) 0%float;
     intersectionThreshold := attrIntersectionThreshold a;
     intersectionMargin :=
       withDefault (attrIntersectionMargin a) "0px 0px 0px 0px"%string;
     lazyLoad := withDefault (attrLazyLoad a) true |}.

(** What [setup] returns ([inView] and [elRef] are inside [tracker]),
    next to the props of the instance. *)
Record Instance : Type := {
  instanceProps : Props;
  tracker : UseInView.Refs;
  loaded : bool
}.

Definition setTracker (r : UseInView.Refs) (i : Instance) : Instance :=
  {| instanceProps := instanceProps i; tracker := r; loaded := loaded i |}.

(** [function handleLoad() { loaded.value = true; }] *)
Definition handleLoad (i : Instance) : Instance :=
  {| instanceProps := instanceProps i; tracker := tracker i;
     loaded := true |}.

Definition setup (p : Props) : Instance :=
  {| instanceProps := p;
     tracker :=
       UseInView.useInView
         {| threshold :=
              Js.or (Js.or (Js.ofNumber (intersectionThreshold p))
                           (Js.Number (intersectionTreshold p)))
                    (Js.Number 0%float);
            rootMargin :=
              Js.or (Js.Str (intersectionMargin p))
                    (Js.Str "0px 0px 0px 0px"%string) |};
     loaded := false |}.

(** What [render] decides from the state: whether the [picture] is in
    the tree, and the opacity of the placeholder and of the image. *)
Record View : Type := {
  addImage : bool;
  showImage : bool;
  placeholderOpacity : nat;
  imageOpacity : nat
}.

Section WithGlobal.
Variable global : Env.Global.

Definition state (i : Instance) : Strategy.State :=
  {| Strategy.lazyLoad := Some (lazyLoad (instanceProps i));
     Strategy.inView := UseInView.inView (tracker i);
     Strategy.loaded := loaded i |}.

Definition render (i : Instance) : View :=
  let addImage := Strategy.imageAddStrategy global (state i) in
  let showImage := Strategy.imageShowStrategy global (state i) in
  {| addImage := addImage;
     showImage := showImage;
     placeholderOpacity := if showImage then 0 else 1;
     imageOpacity := if showImage then 1 else 0 |}.

(** Everything that can happen to a component instance: the framework
    binding the root element to [elRef], the two lifecycle hooks, the
    host reporting intersection changes, the observer callback being
    run on given entries, the [load] event of the image, a render. *)
Inductive Event : Type :=
| BindRef (el : option Element)
| Mounted
| BeforeUnmount
| Intersection (changes : list Entry)
| Callback (entries : list Entry)
| Load
| Render.

Definition step (i : Instance) (e : Event) : Instance :=
  match e with
  | BindRef el => setTracker (UseInView.setElRef el (tracker i)) i
  | Mounted => setTracker (UseInView.onMounted global (tracker i)) i
  | BeforeUnmount =>
      setTracker (UseInView.onBeforeUnmount global (tracker i)) i
  | Intersection changes =>
      setTracker (UseInView.notify (tracker i) changes) i
  | Callback entries =>
      match UseInView.callback (tracker i) entries with
      | Js.Return r => setTracker r i
      | Js.ThrowTypeError => i
      end
  | Load => handleLoad i
  | Render => let _ := render i in i
  end.

Definition run (i : Instance) (es : list Event) : Instance :=
  fold_left step es i.
End WithGlobal.

End Image.

(** ** Objects, as the render functions build them *)

Module Obj.

(** The values found in the data of a virtual node: primitives, function
    references and objects with their own enumerable properties, in
    insertion order and with no key twice. *)
#[warnings="-register-all"]
Inductive Val : Type :=
| Undefined
| Null
| Bool (b : bool)
| Num (x : float)
| Str (s : string)
| Fn (name : string)
| Obj (fields : list (string * Val)).

Definition Fields : Type := list (string * Val).

(** ToBoolean; functions and objects are truthy. *)
Definition truthy (v : Val) : bool :=
  match v with
  | Undefined | Null => false
  | Bool b => b
  | Num x => negb (is_zero x || is_nan x)
  | Str s => negb (Js.isEmpty s)
  | Fn _ | Obj _ => true
  end.

(** [a || b] *)
Definition or (a b : Val) : Val := if truthy a then a else b.

(** [x || d] for an optional number [x] and a number [d]. *)
Definition orNumber (x : option float) (d : float) : float :=
  match x with
  | Some y => if truthy (Num y) then y else d
  | None => d
  end.

Definition ofString (o : option string) : Val :=
  match o with
  | Some s => Str s
  | None => Undefined
  end.

Fixpoint get (k : string) (o : Fields) : option Val :=
  match o with
  | [] => None
  | (k', v) :: o' => if String.eqb k k' then Some v else get k o'
  end.

(** Defining the property [k]: an existing key keeps its place and takes
    the new value, a new key goes last. *)
Fixpoint set (k : string) (v : Val) (o : Fields) : Fields :=
  match o with
  | [] => [(k, v)]
  | (k', v') :: o' =>
      if String.eqb k k' then (k, v) :: o' else (k', v') :: set k v o'
  end.

Fixpoint remove (k : string) (o : Fields) : Fields :=
  match o with
  | [] => []
  | (k', v) :: o' =>
      if String.eqb k k' then remove k o' else (k', v) :: remove k o'
  end.

(** Strings stand for JavaScript strings through their UTF-8 bytes, and
    JavaScript cuts them by UTF-16 code unit.  A character is one code
    unit when it takes one to three bytes, and two code units (a
    surrogate pair) when it takes four.  [width c] is the number of bytes
    of the character whose first byte is [c]: [0xxxxxxx] starts a
    character of one byte, [110xxxxx] of two, [1110xxxx] of three,
    [11110xxx] of four. *)
Definition width (c : ascii) : nat :=
  match c with
  | Ascii _ _ _ _ _ _ _ false => 1
  | Ascii _ _ _ _ _ false true true => 2
  | Ascii _ _ _ _ false true true true => 3
  | Ascii _ _ _ false true true true true => 4
  | _ => 1
  end.

Fixpoint take (n : nat) (s : string) : string :=
  match n, s with
  | S n', String c s' => String c (take n' s')
  | _, _ => EmptyString
  end.

Fixpoint drop (n : nat) (s : string) : string :=
  match n, s with
  | S n', String _ s' => drop n' s'
  | _, _ => s
  end.

(** The code point written in the four bytes at the start of [s], and a
    code unit of the surrogate range written as three bytes, the way
    UTF-8 writes a code unit of that value. *)
Definition codePoint4 (s : string) : N :=
  match s with
  | String a (String b (String c (String d _))) =>
      ((N_of_ascii a mod 8) * 262144 + (N_of_ascii b mod 64) * 4096
       + (N_of_ascii c mod 64) * 64 + N_of_ascii d mod 64)%N
  | _ => 65536%N
  end.

Definition unit3 (u : N) : string :=
  String (ascii_of_N (224 + u / 4096)%N)
    (String (ascii_of_N (128 + (u / 64) mod 64)%N)
       (String (ascii_of_N (128 + u mod 64)%N) EmptyString)).

Definition highSurrogate (s : string) : string :=
  unit3 (55296 + (codePoint4 s - 65536) / 1024)%N.

Definition lowSurrogate (s : string) : string :=
  unit3 (56320 + (codePoint4 s - 65536) mod 1024)%N.

(** The UTF-16 code units of a string, one string each: a character of
    one to three bytes is one code unit, a character of four bytes is its
    two surrogates. *)
Fixpoint units (fuel : nat) (s : string) : list string :=
  match fuel, s with
  | S fuel', String c _ =>
      (if Nat.eqb (width c) 4
       then [highSurrogate s; lowSurrogate s]
       else [take (width c) s])
        ++ units fuel' (drop (width c) s)
  | _, _ => []
  end.

Definition codeUnits (s : string) : list string := units (String.length s) s.

Fixpoint numbered (n : nat) (l : list string) : Fields :=
  match l with
  | [] => []
  | u :: l' =>
      (NilZero.string_of_uint (Nat.to_uint n), Str u) :: numbered (S n) l'
  end.

(** The code units of a string under their indices. *)
Definition indexed (n : nat) (s : string) : Fields :=
  numbered n (codeUnits s).

(** The own enumerable properties of a value, as spreading it or
    [Object.entries] enumerates them: the fields of an object, the
    characters of a string, nothing for the other values. *)
Definition entries (v : Val) : Fields :=
  match v with
  | Obj fields => fields
  | Str s => indexed 0 s
  | _ => []
  end.

(** [v.k] for a key that is not inherited: [undefined] when missing. *)
Definition prop (k : string) (v : Val) : Val :=
  match get k (entries v) with
  | Some x => x
  | None => Undefined
  end.

(** The members of an object literal: [k: v] and [...v]. *)
Inductive Member : Type :=
| Field (k : string) (v : Val)
| Spread (v : Val).

Definition define (o : Fields) (m : Member) : Fields :=
  match m with
  | Field k v => set k v o
  | Spread v => fold_left (fun acc kv => set (fst kv) (snd kv) acc) (entries v) o
  end.

(** An object literal defines its members from left to right. *)
Definition literal (ms : list Member) : Val := Obj (fold_left define ms []).

(** The last value a list of entries gives to a key. *)
Definition last (k : string) (s : Fields) : option Val := get k (rev s).

End Obj.

(** ** Virtual nodes and the [h] adapter *)

Module VNode.

Import Obj.

(** What the module takes from its host and from [vue-demi]: the [isVue3]
    flag, [String.prototype.toUpperCase], the conversion of a number to a
    string in a template literal, and the two base64 encoders behind
    [universalBtoa]. *)
Record Host : Type := {
  isVue3 : bool;
  toUpperCase : string -> string;
  numberToString : float -> string;
  windowBtoa : string -> string;
  bufferBase64 : string -> string
}.

(** A child of a node is the node a call of [rawH] returns, recorded as
    the arguments of the call (the tag, the data, the rest arguments, each
    an array of children), or the falsy left operand of an [&&]. *)
#[warnings="-register-all"]
Inductive Node : Type :=
| NotRendered (v : Val)
| RawH (tag : string) (data : Val) (rest : list (list Node)).

(** [v && n] *)
Definition and (v : Val) (n : Node) : Node :=
  if truthy v then n else NotRendered v.

(** The key starts with a character of two code units. *)
Definition startsWithPair (key : string) : bool :=
  match key with
  | EmptyString => false
  | String c _ => Nat.eqb (width c) 4
  end.

(** [key.charAt(0)] and [key.slice(1)], for a key that does not start
    with a surrogate pair: the first character (nothing when the key is
    empty) and what follows it. *)
Definition charAt0 (key : string) : string :=
  match key with
  | EmptyString => EmptyString
  | String c _ => take (width c) key
  end.

Definition slice1 (key : string) : string :=
  match key with
  | EmptyString => EmptyString
  | String c _ => drop (width c) key
  end.

Section WithHost.
Variable host : Host.

(** [key.charAt(0).toUpperCase() + key.slice(1)].  When the key starts
    with a surrogate pair, [charAt(0)] is the high surrogate alone, which
    has no upper case, and [slice(1)] starts with the low surrogate: put
    together again they are the key. *)
Definition capitalized (key : string) : string :=
  if startsWithPair key then key
  else (toUpperCase host (charAt0 key) ++ slice1 key)%string.

(** [`on${key.charAt(0).toUpperCase() + key.slice(1)}`] *)
Definition listenerName (key : string) : string :=
  ("on" ++ capitalized key)%string.

(** [Object.entries(on || {}).reduce((acc, [key, value]) =>
       ({ ...acc, [listenerName key]: value }), {})] *)
Definition listeners (on : Val) : Val :=
  fold_left
    (fun acc kv =>
       literal [Spread acc; Field (listenerName (fst kv)) (snd kv)])
    (entries (or on (Obj [])))
    (Obj []).

(** The data [h] hands to [rawH] under Vue 3. *)
Definition vue3Data (data : Val) : Val :=
  if truthy data then
    let attrs := prop "attrs" data in
    let on := prop "on" data in
    let other := Obj (remove "on" (remove "attrs" (entries data))) in
    literal [Spread other; Spread attrs; Spread (listeners on)]
  else Null.

Definition h (tag : string) (data : Val) (rest : list (list Node)) : Node :=
  if isVue3 host then RawH tag (vue3Data data) rest
  else RawH tag data rest.

End WithHost.

End VNode.

(** ** The tree [render] returns *)

Module Render.

Import Obj VNode.
Local Open Scope string_scope.

Record ResponsiveImageType : Type := {
  aspectRatio : float;
  base64 : option string;
  height : option float;
  width : float;
  sizes : option string;
  src : option string;
  srcSet : option string;
  webpSrcSet : option string;
  bgColor : option string;
  alt : option string;
  title : option string
}.

(** The props [render] reads besides [lazyLoad]; [pictureStyle] is an
    object (by default the empty one), [explicitWidth] a boolean. *)
Record Props : Type := {
  data : ResponsiveImageType;
  pictureClass : option string;
  fadeInDuration : option float;
  pictureStyle : Fields;
  explicitWidth : bool
}.

Definition absolutePositioning : Val :=
  literal [Field "position" (Str "absolute");
           Field "left" (Str "0px");
           Field "top" (Str "0px");
           Field "width" (Str "100%");
           Field "height" (Str "100%")].

(** An optional string inside a template literal. *)
Definition template (o : option string) : string :=
  match o with
  | Some s => s
  | None => "undefined"
  end.

(** The double quote character. *)
Definition quote : string := String "034"%char EmptyString.

Section WithContext.
Variable global : Env.Global.
Variable host : Host.
Variable instance : Image.Instance.
Variable p : Props.

(** [const universalBtoa = isSsr ? (str) => Buffer.from(...) : window.btoa] *)
Definition universalBtoa : string -> string :=
  if Env.isSsr global then bufferBase64 host else windowBtoa host.

Definition addImage : bool :=
  Strategy.imageAddStrategy global (Image.state instance).

Definition showImage : bool :=
  Strategy.imageShowStrategy global (Image.state instance).

Definition webpSource : Node :=
  and (ofString (webpSrcSet (data p)))
      (h host "source"
         (literal
            [Field "attrs"
               (literal [Field "srcset" (ofString (webpSrcSet (data p)));
                         Field "sizes" (ofString (sizes (data p)));
                         Field "type" (Str "image/webp")])])
         []).

Definition regularSource : Node :=
  and (ofString (srcSet (data p)))
      (h host "source"
         (literal
            [Field "attrs"
               (literal [Field "srcset" (ofString (srcSet (data p)));
                         Field "sizes" (ofString (sizes (data p)))])])
         []).

(** [typeof fadeInDuration === "undefined" || fadeInDuration > 0
       ? `opacity ${fadeInDuration || 500}ms ${fadeInDuration || 500}ms`
       : undefined] *)
Definition transition : Val :=
  if match fadeInDuration p with
     | None => true
     | Some x => (0 <? x)%float
     end
  then Str ("opacity "
            ++ numberToString host (orNumber (fadeInDuration p) 500%float)
            ++ "ms "
            ++ numberToString host (orNumber (fadeInDuration p) 500%float)
            ++ "ms")
  else Undefined.

Definition placeholder : Node :=
  h host "div"
    (literal
       [Field "style"
          (literal
             [Field "backgroundImage"
                (if truthy (ofString (base64 (data p)))
                 then Str ("url(" ++ template (base64 (data p)) ++ ")")
                 else Null);
              Field "backgroundColor" (ofString (bgColor (data p)));
              Field "backgroundSize" (Str "cover");
              Field "opacity" (Num (if showImage then 0 else 1)%float);
              Field "transition" transition;
              Spread absolutePositioning])])
    [].

(** [const height = this.data.height || width / aspectRatio] *)
Definition sizerHeight : float :=
  orNumber (height (data p)) (width (data p) / aspectRatio (data p))%float.

Definition svg : string :=
  "<svg xmlns=" ++ quote ++ "http://www.w3.org/2000/svg" ++ quote
  ++ " width=" ++ quote ++ numberToString host (width (data p)) ++ quote
  ++ " height=" ++ quote ++ numberToString host sizerHeight ++ quote
  ++ "></svg>".

Definition sizer : Node :=
  h host "img"
    (literal
       [Field "class" (ofString (pictureClass p));
        Field "style"
          (literal
             [Field "display" (Str "block");
              Field "width"
                (if explicitWidth p
                 then Str (numberToString host (width (data p)) ++ "px")
                 else Str "100%");
              Spread (Obj (pictureStyle p))]);
        Field "attrs"
          (literal
             [Field "src" (Str ("data:image/svg+xml;base64,"
                                ++ universalBtoa svg));
              Field "role" (Str "presentation")])])
    [].

(** The data of the image that is loaded lazily. *)
Definition imageData : Val :=
  literal
    [Field "attrs"
       (literal [Field "src" (ofString (src (data p)));
                 Field "alt" (ofString (alt (data p)));
                 Field "title" (ofString (title (data p)))]);
     Field "on" (literal [Field "load" (Fn "handleLoad")]);
     Field "class" (ofString (pictureClass p));
     Field "style"
       (literal [Spread absolutePositioning;
                 Spread (Obj (pictureStyle p));
                 Field "opacity" (Num (if showImage then 1 else 0)%float);
                 Field "transition" transition])].

Definition picture : Node :=
  h host "picture" Null
    [[webpSource; regularSource;
      and (ofString (src (data p))) (h host "img" imageData [])]].

(** The data of the image inside [noscript]. *)
Definition fallbackData : Val :=
  literal
    [Field "attrs"
       (literal [Field "src" (ofString (src (data p)));
                 Field "alt" (ofString (alt (data p)));
                 Field "title" (ofString (title (data p)));
                 Field "loading" (Str "lazy")]);
     Field "class" (ofString (pictureClass p));
     Field "style"
       (literal [Spread (Obj (pictureStyle p));
                 Spread absolutePositioning])].

Definition noscript : Node :=
  h host "noscript" Null
    [[h host "picture" Null
        [[webpSource; regularSource;
          and (ofString (src (data p))) (h host "img" fallbackData [])]]]].

Definition render : Node :=
  h host "div"
    (literal
       [Field "style"
          (literal
             [Field "display"
                (Str (if explicitWidth p then "inline-block" else "block"));
              Field "overflow" (Str "hidden");
              Field "position" (Str "relative")]);
        Field "ref" (Str "elRef")])
    [[sizer; placeholder; and (Bool addImage) picture; noscript]].

End WithContext.

(** The children a node was given: its first rest argument. *)
Definition children (n : Node) : list Node :=
  match n with
  | RawH _ _ (cs :: _) => cs
  | _ => []
  end.

(** The data a node was given. *)
Definition dataOf (n : Node) : Val :=
  match n with
  | RawH _ d _ => d
  | NotRendered _ => Undefined
  end.

End Render.

(** ** Vocabulary of the statements *)

(** The three environments the strategies tell apart. *)
Inductive Context : Type := OnServer | WithObserver | WithoutObserver.

Definition context (g : Env.Global) : Context :=
  if Env.isSsr g then OnServer
  else if Env.isIntersectionObserverAvailable g then WithObserver
  else WithoutObserver.

(** A strategy input with lazy loading switched on. *)
Definition lazyState (inView loaded : bool) : Strategy.State :=
  {| Strategy.lazyLoad := Some true;
     Strategy.inView := inView;
     Strategy.loaded := loaded |}.

(** A strategy input with lazy loading switched off. *)
Definition eagerState (inView loaded : bool) : Strategy.State :=
  {| Strategy.lazyLoad := Some false;
     Strategy.inView := inView;
     Strategy.loaded := loaded |}.

(** A tracker as the component has it when its hooks run: created by
    [useInView], with the root element (if any) bound to [elRef]. *)
Definition freshTracker (i : Observer.Init) (el : option Observer.Element)
  : UseInView.Refs :=
  UseInView.setElRef el (UseInView.useInView i).

(** That tracker after the mount hook, and after the unmount hook run
    straight after it. *)
Definition mountedTracker (g : Env.Global) (i : Observer.Init)
    (el : option Observer.Element) : UseInView.Refs :=
  UseInView.onMounted g (freshTracker i el).

Definition detachedTracker (g : Env.Global) (i : Observer.Init)
    (el : option Observer.Element) : UseInView.Refs :=
  UseInView.onBeforeUnmount g (mountedTracker g i el).

(** The threshold of the observer that mounting creates for a component
    given the attributes [a] ([None] when no observer is created). *)
Definition observerThreshold (g : Env.Global) (a : Image.Attrs)
    (el : option Observer.Element) : option Js.Value :=
  option_map
    (fun o => Observer.threshold (Observer.options o))
    (UseInView.observer
       (UseInView.onMounted g
          (UseInView.setElRef el
             (Image.tracker (Image.setup (Image.props a)))))).

(** The [<=] of the latches: [false] below [true]. *)
Definition latched (before after : bool) : Prop := Bool.le before after.

(** Sample inputs: the options the component passes by default, and an
    entry about a given element. *)
Definition defaultInit : Observer.Init :=
  {| Observer.threshold := Js.Number 0%float;
     Observer.rootMargin := Js.Str "0px 0px 0px 0px"%string |}.

Definition entry (el : Observer.Element) (intersecting : bool)
  : Observer.Entry :=
  {| Observer.target := el; Observer.isIntersecting := intersecting |}.

(** Attributes that set both threshold props, and nothing else. *)
Definition thresholdAttrs (deprecated current : option float) : Image.Attrs :=
  {| Image.attrIntersectionTreshold := deprecated;
     Image.attrIntersectionThreshold := current;
     Image.attrIntersectionMargin := None;
     Image.attrLazyLoad := None |}.

(** An instance set up with no attribute given. *)
Definition fresh : Image.Instance :=
  Image.setup (Image.props (thresholdAttrs None None)).

(** A tracker whose observer is missing or holds no subscription: the
    host has nothing to notify it of. *)
Definition silent (r : UseInView.Refs) : Prop :=
  match UseInView.observer r with
  | Some o => Observer.observationTargets o = []
  | None => True
  end.

(** The three views a lazily loaded image goes through: nothing but the
    placeholder, the picture in the tree behind the placeholder, the
    picture shown. *)
Definition viewPlaceholder : Image.View :=
  {| Image.addImage := false; Image.showImage := false;
     Image.placeholderOpacity := 1; Image.imageOpacity := 0 |}.

Definition viewLoading : Image.View :=
  {| Image.addImage := true; Image.showImage := false;
     Image.placeholderOpacity := 1; Image.imageOpacity := 0 |}.

Definition viewShown : Image.View :=
  {| Image.addImage := true; Image.showImage := true;
     Image.placeholderOpacity := 0; Image.imageOpacity := 1 |}.

(** No entry of the batch is about the element. *)
Definition silentAbout (el : Observer.Element)
    (changes : list Observer.Entry) : bool :=
  forallb (fun x => negb (Nat.eqb (Observer.target x) el)) changes.

(** Attributes that only set the margin, or only [lazyLoad]. *)
Definition marginAttrs (margin : option string) : Image.Attrs :=
  {| Image.attrIntersectionTreshold := None;
     Image.attrIntersectionThreshold := None;
     Image.attrIntersectionMargin := margin;
     Image.attrLazyLoad := None |}.

(** [{...target, ...source}] on fields: the entries of [source] defined
    one after the other on top of [target]. *)
Definition assign (target source : Obj.Fields) : Obj.Fields :=
  fold_left (fun acc kv => Obj.set (fst kv) (snd kv) acc) source target.

(** The keys of an object. *)
Definition keys (o : Obj.Fields) : list string := map fst o.

(** The listeners of an [on] object under the names [h] gives them. *)
Definition renamed (host : VNode.Host) (on : Obj.Val) : Obj.Fields :=
  map (fun kv => (VNode.listenerName host (fst kv), snd kv))
      (Obj.entries (Obj.or on (Obj.Obj []))).

(** First of two optional values. *)
Definition orElse (a b : option Obj.Val) : option Obj.Val :=
  match a with
  | Some v => Some v
  | None => b
  end.

(** A host for the examples: upper-casing of the letters [a] to [z], a
    number printer that only knows [0], [1] and [500], and encoders that
    tag their input. *)
Definition upperAscii (c : ascii) : ascii :=
  let n := nat_of_ascii c in
  if (Nat.leb 97 n && Nat.leb n 122)%bool then ascii_of_nat (n - 32) else c.

Fixpoint upper (s : string) : string :=
  match s with
  | EmptyString => EmptyString
  | String c s' => String (upperAscii c) (upper s')
  end.

Definition printNumber (x : float) : string :=
  if (x =? 0)%float then "0"%string
  else if (x =? 1)%float then "1"%string
  else if (x =? 500)%float then "500"%string
  else "?"%string.

Definition sampleHost (vue3 : bool) : VNode.Host :=
  {| VNode.isVue3 := vue3;
     VNode.toUpperCase := upper;
     VNode.numberToString := printNumber;
     VNode.windowBtoa := fun s => ("btoa:" ++ s)%string;
     VNode.bufferBase64 := fun s => ("buffer:" ++ s)%string |}.

(** Sample data for [h]: an attribute, a listener and a class. *)
Definition sampleData : Obj.Fields :=
  [("attrs"%string, Obj.Obj [("src"%string, Obj.Str "a.png")]);
   ("on"%string, Obj.Obj [("load"%string, Obj.Fn "handleLoad")]);
   ("class"%string, Obj.Str "photo")].

(** The two image nodes, and the style a node was given. *)
Definition lazyImage (g : Env.Global) (host : VNode.Host)
    (i : Image.Instance) (p : Render.Props) : VNode.Node :=
  VNode.h host "img" (Render.imageData g host i p) [].

Definition fallbackImage (host : VNode.Host) (p : Render.Props) : VNode.Node :=
  VNode.h host "img" (Render.fallbackData p) [].

Definition styleOf (n : VNode.Node) : Obj.Fields :=
  Obj.entries (Obj.prop "style" (Render.dataOf n)).

(** Sample props for [render]: a square image with a source, and the
    given style and fade-in duration. *)
Definition sampleProps (style : Obj.Fields) (fade : option float)
  : Render.Props :=
  {| Render.data :=
       {| Render.aspectRatio := 1%float;
          Render.base64 := None;
          Render.height := None;
          Render.width := 1%float;
          Render.sizes := None;
          Render.src := Some "a.png"%string;
          Render.srcSet := None;
          Render.webpSrcSet := None;
          Render.bgColor := None;
          Render.alt := None;
          Render.title := None |};
     Render.pictureClass := None;
     Render.fadeInDuration := fade;
     Render.pictureStyle := style;
     Render.explicitWidth := false |}.

(** The UTF-8 bytes of a small and a capital e with acute accent, of the
    euro sign and of an emoji outside the Basic Multilingual Plane, and a
    host that also knows the capital of the accented e. *)
Definition eAcute : string := String "195"%char (String "169"%char EmptyString).

Definition eAcuteCapital : string :=
  String "195"%char (String "137"%char EmptyString).

Definition euro : string :=
  String "226"%char (String "130"%char (String "172"%char EmptyString)).

Definition emoji : string :=
  String "240"%char
    (String "159"%char (String "152"%char (String "128"%char EmptyString))).

Definition accentHost : VNode.Host :=
  {| VNode.isVue3 := true;
     VNode.toUpperCase :=
       fun s => if String.eqb s eAcute then eAcuteCapital else upper s;
     VNode.numberToString := printNumber;
     VNode.windowBtoa := fun s => ("btoa:" ++ s)%string;
     VNode.bufferBase64 := fun s => ("buffer:" ++ s)%string |}.

(** * Properties *)

(** ** Capability constants *)

Section Capability.
Variable g : Env.Global.

Lemma isSsr_no_window : Env.isSsr g = true <-> Env.window g = None.
Proof.
  unfold Env.isSsr. destruct (Env.window g); split; congruence.
Qed.

(** What the second constant is, in terms of the first and of the
    property found on [window]. *)
Lemma available_iff :
  Env.isIntersectionObserverAvailable g = true <->
  Env.isSsr g = false /\
  exists w, Env.window g = Some w /\
            Js.truthy (Env.IntersectionObserver w) = true.
Proof.
  unfold Env.isIntersectionObserverAvailable, Env.isSsr, Js.not.
  destruct (Env.window g) as [w|]; split.
  - rewrite negb_involutive. intros H. split; [reflexivity|].
    exists w. split; [reflexivity | exact H].
  - intros [_ [w' [Hw Ht]]]. injection Hw as <-.
    rewrite negb_involutive. exact Ht.
  - discriminate.
  - intros [H _]. discriminate H.
Qed.
End Capability.

(** C9. The observer can only be available where there is a [window]:
    [isIntersectionObserverAvailable] implies [not isSsr], and so on the
    server the flag is false. *)
Theorem observer_available_not_ssr (g : Env.Global) :
  (Env.isIntersectionObserverAvailable g = true -> Env.isSsr g = false) /\
  (Env.isSsr g = true -> Env.isIntersectionObserverAvailable g = false).
Proof.
  split.
  - intros H. apply available_iff in H. tauto.
  - intros H. unfold Env.isIntersectionObserverAvailable. now rewrite H.
Qed.

Lemma observer_available_not_ssr_witness :
  Env.isIntersectionObserverAvailable Env.browser = true /\
  Env.isSsr Env.browser = false /\
  Env.isSsr Env.server = true /\
  Env.isIntersectionObserverAvailable Env.server = false.
Proof.
  assert (Ha : Env.isIntersectionObserverAvailable Env.browser = true)
    by reflexivity.
  assert (Hs : Env.isSsr Env.server = true) by reflexivity.
  exact (conj Ha
          (conj (proj1 (observer_available_not_ssr Env.browser) Ha)
            (conj Hs (proj2 (observer_available_not_ssr Env.server) Hs)))).
Defined.

(** ** Strategy functions *)

Section StrategyFacts.
Variable g : Env.Global.
Variable s : Strategy.State.

(** With lazy loading requested, each strategy is a table over the
    three environments. *)
Lemma imageAddStrategy_lazy :
  Strategy.lazyLoad s = Some true ->
  Strategy.imageAddStrategy g s =
  match context g with
  | OnServer => false
  | WithObserver => Strategy.inView s || Strategy.loaded s
  | WithoutObserver => true
  end.
Proof.
  intros Hl. unfold Strategy.imageAddStrategy, context. rewrite Hl. cbn.
  destruct (Env.isSsr g); [reflexivity|].
  destruct (Env.isIntersectionObserverAvailable g); reflexivity.
Qed.

Lemma imageShowStrategy_lazy :
  Strategy.lazyLoad s = Some true ->
  Strategy.imageShowStrategy g s =
  match context g with
  | OnServer => false
  | WithObserver => Strategy.loaded s
  | WithoutObserver => true
  end.
Proof.
  intros Hl. unfold Strategy.imageShowStrategy, context. rewrite Hl. cbn.
  destruct (Env.isSsr g); [reflexivity|].
  destruct (Env.isIntersectionObserverAvailable g); reflexivity.
Qed.

Lemma context_without_observer :
  Env.isSsr g = false ->
  Env.isIntersectionObserverAvailable g = false ->
  context g = WithoutObserver.
Proof. intros H1 H2. unfold context. now rewrite H1, H2. Qed.

Lemma context_with_observer :
  Env.isIntersectionObserverAvailable g = true ->
  context g = WithObserver.
Proof.
  intros H. unfold context.
  rewrite (proj1 (proj1 (available_iff g) H)). now rewrite H.
Qed.

Lemma context_on_server : Env.isSsr g = true -> context g = OnServer.
Proof. intros H. unfold context. now rewrite H. Qed.
End StrategyFacts.

Lemma strategies_lazyLoad_undefined (g : Env.Global) (s : Strategy.State) :
  Strategy.lazyLoad s = None ->
  Strategy.imageAddStrategy g s = true /\
  Strategy.imageShowStrategy g s = true.
Proof.
  intros H. unfold Strategy.imageAddStrategy, Strategy.imageShowStrategy.
  rewrite H. split; reflexivity.
Qed.

(** C4. With [lazyLoad] false, [imageAddStrategy] and [imageShowStrategy]
    both return true, in every environment and whatever [inView] and
    [loaded] are. *)
Theorem strategies_eager (g : Env.Global) (s : Strategy.State) :
  Strategy.lazyLoad s = Some false ->
  Strategy.imageAddStrategy g s = true /\
  Strategy.imageShowStrategy g s = true.
Proof.
  intros H. unfold Strategy.imageAddStrategy, Strategy.imageShowStrategy.
  rewrite H. split; reflexivity.
Qed.

Lemma strategies_eager_witness :
  Strategy.lazyLoad (eagerState false false) = Some false /\
  Strategy.imageAddStrategy Env.server (eagerState false false) = true /\
  Strategy.imageShowStrategy Env.server (eagerState false false) = true.
Proof.
  exact (conj eq_refl
           (strategies_eager Env.server (eagerState false false) eq_refl)).
Defined.

(** C5. On the server, with [lazyLoad] true, [imageAddStrategy] and
    [imageShowStrategy] both return false, whatever [inView] and [loaded]
    are. *)
Theorem strategies_on_server (g : Env.Global) (s : Strategy.State) :
  Env.isSsr g = true ->
  Strategy.lazyLoad s = Some true ->
  Strategy.imageAddStrategy g s = false /\
  Strategy.imageShowStrategy g s = false.
Proof.
  intros Hs Hl.
  rewrite imageAddStrategy_lazy, imageShowStrategy_lazy by assumption.
  rewrite context_on_server by assumption.
  split; reflexivity.
Qed.

Lemma strategies_on_server_witness :
  Env.isSsr Env.server = true /\
  Strategy.lazyLoad (lazyState true true) = Some true /\
  Strategy.imageAddStrategy Env.server (lazyState true true) = false /\
  Strategy.imageShowStrategy Env.server (lazyState true true) = false.
Proof.
  exact (conj eq_refl
          (conj eq_refl
            (strategies_on_server Env.server (lazyState true true)
               eq_refl eq_refl))).
Defined.

(** C3. In a browser without the observer, with [lazyLoad] true,
    [imageAddStrategy] returns true whatever [inView] and [loaded] are:
    lazy loading falls back to eager loading. *)
Theorem add_without_observer (g : Env.Global) (s : Strategy.State) :
  Env.isSsr g = false ->
  Env.isIntersectionObserverAvailable g = false ->
  Strategy.lazyLoad s = Some true ->
  Strategy.imageAddStrategy g s = true.
Proof.
  intros Hs Ha Hl.
  rewrite imageAddStrategy_lazy by exact Hl.
  now rewrite context_without_observer.
Qed.

Lemma add_without_observer_witness :
  Env.isSsr Env.legacyBrowser = false /\
  Env.isIntersectionObserverAvailable Env.legacyBrowser = false /\
  Strategy.lazyLoad (lazyState false false) = Some true /\
  Strategy.imageAddStrategy Env.legacyBrowser (lazyState false false) = true.
Proof.
  exact (conj eq_refl
          (conj eq_refl
            (conj eq_refl
              (add_without_observer Env.legacyBrowser (lazyState false false)
                 eq_refl eq_refl eq_refl)))).
Defined.

(** C6. In a browser with the observer, with [lazyLoad] true,
    [imageAddStrategy] returns [inView || loaded]: false when both are
    false, true as soon as [inView] is true, true as soon as [loaded] is
    true.  (That the environment is not the server follows from the
    observer being available.) *)
Theorem add_with_observer (g : Env.Global) (s : Strategy.State) :
  Env.isIntersectionObserverAvailable g = true ->
  Strategy.lazyLoad s = Some true ->
  Strategy.imageAddStrategy g s = Strategy.inView s || Strategy.loaded s /\
  (Strategy.inView s = false -> Strategy.loaded s = false ->
   Strategy.imageAddStrategy g s = false) /\
  (Strategy.inView s = true -> Strategy.imageAddStrategy g s = true) /\
  (Strategy.loaded s = true -> Strategy.imageAddStrategy g s = true).
Proof.
  intros Ha Hl.
  assert (E : Strategy.imageAddStrategy g s =
              Strategy.inView s || Strategy.loaded s).
  { rewrite imageAddStrategy_lazy by exact Hl.
    now rewrite context_with_observer. }
  rewrite E. repeat apply conj.
  - reflexivity.
  - intros -> ->. reflexivity.
  - intros ->. reflexivity.
  - intros ->. apply orb_true_r.
Qed.

Lemma add_with_observer_witness :
  Env.isIntersectionObserverAvailable Env.browser = true /\
  Strategy.lazyLoad (lazyState true false) = Some true /\
  Strategy.imageAddStrategy Env.browser (lazyState true false) = true.
Proof.
  refine (conj eq_refl (conj eq_refl _)).
  exact (proj1 (proj2 (proj2
           (add_with_observer Env.browser (lazyState true false)
              eq_refl eq_refl))) eq_refl).
Defined.

(** C1, as the spec has it, fails: in a browser without the observer the
    image is shown although it has not loaded. *)
Lemma show_without_observer_not_loaded :
  ~ (forall (g : Env.Global) (s : Strategy.State),
        Env.isSsr g = false ->
        Env.isIntersectionObserverAvailable g = false ->
        Strategy.lazyLoad s = Some true ->
        Strategy.imageShowStrategy g s = Strategy.loaded s).
Proof.
  intros H.
  specialize (H Env.legacyBrowser (lazyState false false)
                eq_refl eq_refl eq_refl).
  cbv in H. discriminate H.
Qed.

(** C1, amended. In a browser without the observer, with [lazyLoad] true,
    [imageShowStrategy] returns true whatever [inView] and [loaded] are. *)
Theorem show_without_observer (g : Env.Global) (s : Strategy.State) :
  Env.isSsr g = false ->
  Env.isIntersectionObserverAvailable g = false ->
  Strategy.lazyLoad s = Some true ->
  Strategy.imageShowStrategy g s = true.
Proof.
  intros Hs Ha Hl. unfold Strategy.imageShowStrategy.
  rewrite Hl, Hs, Ha. reflexivity.
Qed.

Lemma show_without_observer_witness :
  Env.isSsr Env.legacyBrowser = false /\
  Env.isIntersectionObserverAvailable Env.legacyBrowser = false /\
  Strategy.lazyLoad (lazyState false false) = Some true /\
  Strategy.imageShowStrategy Env.legacyBrowser (lazyState false false) = true.
Proof.
  exact (conj eq_refl
          (conj eq_refl
            (conj eq_refl
              (show_without_observer Env.legacyBrowser
                 (lazyState false false) eq_refl eq_refl eq_refl)))).
Defined.

(** Where the observer is available, showing does wait for the load. *)
Lemma show_with_observer (g : Env.Global) (s : Strategy.State) :
  Env.isIntersectionObserverAvailable g = true ->
  Strategy.lazyLoad s = Some true ->
  Strategy.imageShowStrategy g s = Strategy.loaded s.
Proof.
  intros Ha Hl. rewrite imageShowStrategy_lazy by exact Hl.
  now rewrite context_with_observer.
Qed.

(** ** The tracker *)

Section TrackerFacts.
Import Observer UseInView.

Lemma queued_disconnect (o : Observer.t) (changes : list Entry) :
  queued (disconnect o) changes = [].
Proof.
  unfold queued. induction changes as [|c cs IH]; [reflexivity|].
  cbn. exact IH.
Qed.

Lemma queued_create (i : Init) (changes : list Entry) :
  queued (create i) changes = [].
Proof.
  unfold queued. induction changes as [|c cs IH]; [reflexivity|].
  cbn. exact IH.
Qed.

Lemma observes_observe (el : Element) (i : Init) :
  observes (observe el (create i)) el = true.
Proof.
  unfold observe, observes. cbn. now rewrite PeanoNat.Nat.eqb_refl.
Qed.

Lemma disconnect_idempotent (o : Observer.t) :
  disconnect (disconnect o) = disconnect o.
Proof. reflexivity. Qed.

Lemma notify_silent (r : Refs) (changes : list Entry) :
  silent r -> notify r changes = r.
Proof.
  unfold silent, notify. destruct (observer r) as [o|]; [|reflexivity].
  intros Ho. unfold queued, observes. rewrite Ho.
  induction changes as [|c cs IH]; [reflexivity|]. cbn. exact IH.
Qed.

Lemma notify_all_silent (r : Refs) (batches : list (list Entry)) :
  silent r -> fold_left notify batches r = r.
Proof.
  intros Hr. induction batches as [|b bs IH]; [reflexivity|].
  cbn. now rewrite notify_silent.
Qed.

Lemma onBeforeUnmount_silent (g : Env.Global) (i : Init)
    (el : option Element) :
  silent (detachedTracker g i el).
Proof.
  unfold silent, detachedTracker, mountedTracker, onBeforeUnmount, onMounted.
  destruct (Env.isIntersectionObserverAvailable g); [|exact I].
  destruct el; reflexivity.
Qed.

Lemma onBeforeUnmount_inView (g : Env.Global) (r : Refs) :
  inView (onBeforeUnmount g r) = inView r.
Proof.
  unfold onBeforeUnmount.
  destruct (Env.isIntersectionObserverAvailable g); [|reflexivity].
  destruct (observer r); reflexivity.
Qed.

Lemma onMounted_inView (g : Env.Global) (r : Refs) :
  inView (onMounted g r) = inView r.
Proof.
  unfold onMounted.
  destruct (Env.isIntersectionObserverAvailable g); [|reflexivity].
  cbn. destruct (elRef r); reflexivity.
Qed.

Lemma latched_refl (b : bool) : latched b b.
Proof. destruct b; exact eq_refl || exact I. Qed.

Lemma latched_trans (a b c : bool) :
  latched a b -> latched b c -> latched a c.
Proof. destruct a, b, c; cbn; intros; congruence || exact I. Qed.

(** The callback never clears [inView]. *)
Lemma callback_latched (r r' : Refs) (entries : list Entry) :
  callback r entries = Js.Return r' -> latched (inView r) (inView r').
Proof.
  unfold callback, latched.
  destruct entries as [|image rest]; [discriminate|].
  destruct (isIntersecting image), (observer r);
    intros H; injection H as <-; cbn; destruct (inView r); easy.
Qed.

Lemma notify_latched (r : Refs) (changes : list Entry) :
  latched (inView r) (inView (notify r changes)).
Proof.
  unfold notify.
  destruct (observer r) as [o|]; [|apply latched_refl].
  destruct (queued o changes) as [|q qs]; [apply latched_refl|].
  destruct (callback r (q :: qs)) as [r'|] eqn:E; [|apply latched_refl].
  exact (callback_latched _ _ _ E).
Qed.

(** The callback has no guard of its own against running after the
    unmount hook: the hook leaves [observer.value] in place, so entries
    handed straight to the callback of a mounted and then unmounted
    tracker still set [inView]. *)
Lemma callback_after_unmount (g : Env.Global) (i : Init) (el : Element)
    (image : Entry) (rest : list Entry) :
  Env.isIntersectionObserverAvailable g = true ->
  isIntersecting image = true ->
  exists r',
    callback (detachedTracker g i (Some el)) (image :: rest)
      = Js.Return r' /\
    inView r' = true.
Proof.
  intros Ha Hi.
  unfold detachedTracker, mountedTracker, onBeforeUnmount, onMounted.
  rewrite Ha. cbn.
  rewrite Hi. eexists. split; reflexivity.
Qed.
End TrackerFacts.

(** C2. When the unmount hook runs before any intersection was reported,
    intersections reported afterwards do not reach the tracker: whatever
    the entries say, the tracker is left as it was and [inView] stays
    false. *)
Theorem detached_tracker_not_notified (g : Env.Global) (i : Observer.Init)
    (el : option Observer.Element) (changes : list Observer.Entry)
    (batches : list (list Observer.Entry)) :
  UseInView.notify (detachedTracker g i el) changes = detachedTracker g i el /\
  UseInView.inView (UseInView.notify (detachedTracker g i el) changes)
    = false /\
  UseInView.inView (fold_left UseInView.notify batches (detachedTracker g i el))
    = false.
Proof.
  pose proof (onBeforeUnmount_silent g i el) as Hs.
  assert (Hv : UseInView.inView (detachedTracker g i el) = false).
  { unfold detachedTracker, mountedTracker.
    now rewrite onBeforeUnmount_inView, onMounted_inView. }
  rewrite (notify_silent _ changes Hs), (notify_all_silent _ batches Hs).
  auto.
Qed.

(** C7. Once mounted, the first run of the observer callback on entries
    whose first one is intersecting sets [inView] and disconnects the
    observer in that same run; this is the run the host makes when it
    reports the observed element.  After it no report changes the
    tracker, and neither does running the callback again: it returns the
    same state (or throws on an empty array, before any write). *)
Theorem first_intersection_latches (g : Env.Global) (i : Observer.Init)
    (el : option Observer.Element) (image : Observer.Entry)
    (rest more : list Observer.Entry)
    (batches : list (list Observer.Entry)) :
  Env.isIntersectionObserverAvailable g = true ->
  Observer.isIntersecting image = true ->
  exists r2 : UseInView.Refs,
    UseInView.callback (mountedTracker g i el) (image :: rest)
      = Js.Return r2 /\
    (el = Some (Observer.target image) ->
     UseInView.notify (mountedTracker g i el) (image :: rest) = r2) /\
    UseInView.inView (mountedTracker g i el) = false /\
    UseInView.inView r2 = true /\
    UseInView.observer r2
      = option_map Observer.disconnect
          (UseInView.observer (mountedTracker g i el)) /\
    silent r2 /\
    UseInView.notify r2 more = r2 /\
    fold_left UseInView.notify batches r2 = r2 /\
    (UseInView.callback r2 more = Js.Return r2 \/
     UseInView.callback r2 more = Js.ThrowTypeError).
Proof.
  intros Ha Hi.
  destruct (UseInView.observer (mountedTracker g i el)) as [o|] eqn:Eo.
  2:{ exfalso. revert Eo. unfold mountedTracker, UseInView.onMounted.
      rewrite Ha. destruct el; discriminate. }
  set (r1 := mountedTracker g i el) in *.
  set (r2 := UseInView.setObserver (Some (Observer.disconnect o))
               (UseInView.setInView true r1)).
  assert (Hc : forall tl, UseInView.callback r1 (image :: tl) = Js.Return r2).
  { intros tl. unfold UseInView.callback. now rewrite Hi, Eo. }
  assert (Hs : silent r2) by reflexivity.
  exists r2. repeat apply conj.
  - apply Hc.
  - intros ->. unfold UseInView.notify. rewrite Eo.
    assert (Eq : o = Observer.observe (Observer.target image)
                       (Observer.create i)).
    { revert Eo. subst r1. unfold mountedTracker, UseInView.onMounted.
      rewrite Ha. cbn -[Observer.observe]. congruence. }
    unfold Observer.queued. cbn [filter].
    rewrite Eq, observes_observe, <- Eq. now rewrite Hc.
  - subst r1. unfold mountedTracker. now rewrite onMounted_inView.
  - reflexivity.
  - reflexivity.
  - exact Hs.
  - now apply notify_silent.
  - now apply notify_all_silent.
  - destruct more as [|m ms]; [right; reflexivity|left].
    unfold UseInView.callback.
    destruct (Observer.isIntersecting m); reflexivity.
Qed.

Lemma first_intersection_latches_witness :
  Env.isIntersectionObserverAvailable Env.browser = true /\
  Observer.isIntersecting (entry 7 true) = true /\
  exists r2 : UseInView.Refs,
    UseInView.notify (mountedTracker Env.browser defaultInit (Some 7))
                     [entry 7 true; entry 7 false] = r2 /\
    UseInView.inView r2 = true /\
    UseInView.notify r2 [entry 7 true] = r2.
Proof.
  refine (conj eq_refl (conj eq_refl _)).
  destruct (first_intersection_latches Env.browser defaultInit (Some 7)
              (entry 7 true) [entry 7 false] [entry 7 true] []
              eq_refl eq_refl)
    as [r2 [_ [Hn [_ [Hv [_ [_ [Hm _]]]]]]]].
  exists r2. exact (conj (Hn eq_refl) (conj Hv Hm)).
Defined.

(** ** The component instance *)

Section InstanceFacts.
Import Image.
Variable g : Env.Global.

Lemma step_inView_latched (i : Instance) (e : Event) :
  latched (UseInView.inView (tracker i))
          (UseInView.inView (tracker (step g i e))).
Proof.
  destruct e as [el| | |changes|entries| |]; cbn.
  - apply latched_refl.
  - rewrite onMounted_inView. apply latched_refl.
  - rewrite onBeforeUnmount_inView. apply latched_refl.
  - apply notify_latched.
  - destruct (UseInView.callback (tracker i) entries) as [r|] eqn:E.
    + exact (callback_latched _ _ _ E).
    + apply latched_refl.
  - apply latched_refl.
  - apply latched_refl.
Qed.

Lemma step_loaded_latched (i : Instance) (e : Event) :
  latched (loaded i) (loaded (step g i e)).
Proof.
  destruct e as [el| | |changes|entries| |]; cbn;
    try apply latched_refl.
  - destruct (UseInView.callback (tracker i) entries);
      apply latched_refl.
  - destruct (loaded i); exact eq_refl || exact I.
Qed.

Lemma run_latched (es : list Event) :
  forall i : Instance,
    latched (UseInView.inView (tracker i))
            (UseInView.inView (tracker (run g i es))) /\
    latched (loaded i) (loaded (run g i es)).
Proof.
  induction es as [|e es IH]; intros i.
  - split; apply latched_refl.
  - cbn. destruct (IH (step g i e)) as [Hv Hl]. split.
    + exact (latched_trans _ _ _ (step_inView_latched i e) Hv).
    + exact (latched_trans _ _ _ (step_loaded_latched i e) Hl).
Qed.
End InstanceFacts.

(** C8. [inView] and [loaded] are one-way latches: [setup] starts both at
    false, and every event (the element being bound, the mount and
    unmount hooks, a report from the host, a run of the observer
    callback, the load handler, a render) leaves each of them as it was
    or sets it to true; so does every sequence of events. *)
Theorem latches_monotonic (g : Env.Global) (p : Image.Props)
    (i : Image.Instance) (e : Image.Event) (es : list Image.Event) :
  (UseInView.inView (Image.tracker (Image.setup p)) = false /\
   Image.loaded (Image.setup p) = false) /\
  (latched (UseInView.inView (Image.tracker i))
           (UseInView.inView (Image.tracker (Image.step g i e))) /\
   latched (Image.loaded i) (Image.loaded (Image.step g i e))) /\
  (latched (UseInView.inView (Image.tracker i))
           (UseInView.inView (Image.tracker (Image.run g i es))) /\
   latched (Image.loaded i) (Image.loaded (Image.run g i es))).
Proof.
  split; [split; reflexivity|]. split.
  - split; [apply step_inView_latched | apply step_loaded_latched].
  - apply run_latched.
Qed.

(** Read as an implication: a latch that is set stays set. *)
Corollary latches_never_reset (g : Env.Global) (i : Image.Instance)
    (es : list Image.Event) :
  (UseInView.inView (Image.tracker i) = true ->
   UseInView.inView (Image.tracker (Image.run g i es)) = true) /\
  (Image.loaded i = true -> Image.loaded (Image.run g i es) = true).
Proof.
  destruct (run_latched g es i) as [Hv Hl]. unfold latched in *.
  split; intros H; rewrite H in *; assumption.
Qed.

(** ** The threshold handed to the observer *)

Section Threshold.
Import Image.

Lemma truthy_number (x : float) :
  Js.truthy (Js.Number x) = true <-> is_zero x = false /\ is_nan x = false.
Proof.
  cbn. rewrite negb_true_iff. apply orb_false_iff.
Qed.

(** The observer created on mount carries the threshold [setup] gave to
    [useInView]. *)
Lemma observerThreshold_setup (g : Env.Global) (a : Attrs)
    (el : option Observer.Element) :
  Env.isIntersectionObserverAvailable g = true ->
  observerThreshold g a el
  = Some (Observer.threshold
            (UseInView.init (tracker (setup (props a))))).
Proof.
  intros Ha. unfold observerThreshold, UseInView.onMounted.
  rewrite Ha. destruct el; reflexivity.
Qed.

Lemma or_falsy (a b : Js.Value) : Js.truthy a = false -> Js.or a b = b.
Proof. intros H. unfold Js.or. now rewrite H. Qed.

Lemma or_truthy (a b : Js.Value) : Js.truthy a = true -> Js.or a b = a.
Proof. intros H. unfold Js.or. now rewrite H. Qed.

(** A truthy [intersectionThreshold] is the one that is used. *)
Lemma threshold_current (p : Props) (x : float) :
  intersectionThreshold p = Some x ->
  Js.truthy (Js.Number x) = true ->
  Observer.threshold (UseInView.init (tracker (setup p))) = Js.Number x.
Proof.
  intros Hp Hx. cbn. rewrite Hp. cbn [Js.ofNumber].
  now rewrite !or_truthy by (try rewrite or_truthy; assumption).
Qed.
End Threshold.

(** C10. The threshold of the observer is
    [intersectionThreshold || intersectionTreshold || 0], whatever the two
    props are.  So a truthy [intersectionThreshold] is the threshold; and
    when [intersectionThreshold] is left out or is zero, the threshold is
    [intersectionTreshold || 0], the value of the deprecated prop (with
    its default [0] when left out): the deprecated prop itself as soon as
    it is neither zero nor NaN, so that [intersectionThreshold = 0] does
    not prevail over it. *)
Theorem threshold_falls_back (g : Env.Global) (a : Image.Attrs)
    (el : option Observer.Element) :
  Env.isIntersectionObserverAvailable g = true ->
  let deprecated := Image.intersectionTreshold (Image.props a) in
  observerThreshold g a el
    = Some (Js.or (Js.or (Js.ofNumber (Image.attrIntersectionThreshold a))
                         (Js.Number deprecated))
                  (Js.Number 0%float)) /\
  (forall x : float,
      Image.attrIntersectionThreshold a = Some x ->
      Js.truthy (Js.Number x) = true ->
      observerThreshold g a el = Some (Js.Number x)) /\
  (Image.attrIntersectionThreshold a = None \/
   (exists x, Image.attrIntersectionThreshold a = Some x /\
              is_zero x = true) ->
   observerThreshold g a el
     = Some (Js.or (Js.Number deprecated) (Js.Number 0%float)) /\
   (is_zero deprecated = false -> is_nan deprecated = false ->
    observerThreshold g a el = Some (Js.Number deprecated))).
Proof.
  intros Ha deprecated.
  rewrite (observerThreshold_setup g a el Ha).
  assert (F : Observer.threshold
                (UseInView.init (Image.tracker (Image.setup (Image.props a))))
              = Js.or (Js.or (Js.ofNumber (Image.attrIntersectionThreshold a))
                             (Js.Number deprecated))
                      (Js.Number 0%float)) by reflexivity.
  repeat apply conj.
  - now rewrite F.
  - intros x Hx Ht. f_equal.
    exact (threshold_current (Image.props a) x Hx Ht).
  - intros Hx.
    assert (Hf : Js.truthy (Js.ofNumber (Image.attrIntersectionThreshold a))
                 = false).
    { destruct Hx as [-> | [x [-> Hz]]]; [reflexivity|].
      unfold Js.ofNumber, Js.truthy. now rewrite Hz. }
    rewrite F, (or_falsy _ _ Hf). split; [reflexivity|].
    intros Hz Hn. f_equal. apply or_truthy.
    apply truthy_number. now split.
Qed.

Lemma threshold_falls_back_witness :
  Env.isIntersectionObserverAvailable Env.browser = true /\
  (Image.attrIntersectionThreshold
     (thresholdAttrs (Some 0.5%float) (Some 0%float)) = None \/
   (exists x,
       Image.attrIntersectionThreshold
         (thresholdAttrs (Some 0.5%float) (Some 0%float)) = Some x /\
       is_zero x = true)) /\
  observerThreshold Env.browser
    (thresholdAttrs (Some 0.5%float) (Some 0%float)) (Some 7)
  = Some (Js.Number 0.5%float) /\
  observerThreshold Env.browser
    (thresholdAttrs (Some 0.5%float) (Some 0.25%float)) (Some 7)
  = Some (Js.Number 0.25%float).
Proof.
  assert (Hx : Image.attrIntersectionThreshold
                 (thresholdAttrs (Some 0.5%float) (Some 0%float)) = None \/
               (exists x,
                   Image.attrIntersectionThreshold
                     (thresholdAttrs (Some 0.5%float) (Some 0%float))
                     = Some x /\
                   is_zero x = true)).
  { right. exists 0%float. split; reflexivity. }
  refine (conj eq_refl (conj Hx (conj _ _))).
  - exact (proj2 (proj2 (proj2
             (threshold_falls_back Env.browser
                (thresholdAttrs (Some 0.5%float) (Some 0%float)) (Some 7)
                eq_refl)) Hx) eq_refl eq_refl).
  - exact (proj1 (proj2
             (threshold_falls_back Env.browser
                (thresholdAttrs (Some 0.5%float) (Some 0.25%float)) (Some 7)
                eq_refl)) 0.25%float eq_refl eq_refl).
Defined.

(** ** The component through its life, on concrete inputs *)

Section Lifecycle.
Import Image.

Example default_threshold :
  Observer.threshold (UseInView.init (tracker fresh)) = Js.Number 0%float.
Proof. reflexivity. Qed.

Example default_rootMargin :
  Observer.rootMargin (UseInView.init (tracker fresh))
  = Js.Str "0px 0px 0px 0px"%string.
Proof. reflexivity. Qed.

Example current_threshold_wins :
  observerThreshold Env.browser
    (thresholdAttrs (Some 0.5%float) (Some 0.25%float)) (Some 7)
  = Some (Js.Number 0.25%float).
Proof. reflexivity. Qed.

Example nan_thresholds_give_zero :
  observerThreshold Env.browser
    (thresholdAttrs (Some nan) (Some neg_zero)) (Some 7)
  = Some (Js.Number 0%float).
Proof. reflexivity. Qed.

Example render_before_entering :
  render Env.browser (run Env.browser fresh [BindRef (Some 7); Mounted])
  = {| addImage := false; showImage := false;
       placeholderOpacity := 1; imageOpacity := 0 |}.
Proof. reflexivity. Qed.

Example render_in_view_not_loaded :
  render Env.browser
    (run Env.browser fresh
       [BindRef (Some 7); Mounted; Intersection [entry 7 true]])
  = {| addImage := true; showImage := false;
       placeholderOpacity := 1; imageOpacity := 0 |}.
Proof. reflexivity. Qed.

Example render_loaded :
  render Env.browser
    (run Env.browser fresh
       [BindRef (Some 7); Mounted; Intersection [entry 7 true]; Load])
  = {| addImage := true; showImage := true;
       placeholderOpacity := 0; imageOpacity := 1 |}.
Proof. reflexivity. Qed.

Example render_other_element_ignored :
  render Env.browser
    (run Env.browser fresh
       [BindRef (Some 7); Mounted; Intersection [entry 8 true]])
  = render Env.browser (run Env.browser fresh [BindRef (Some 7); Mounted]).
Proof. reflexivity. Qed.

Example render_without_observer :
  render Env.legacyBrowser
    (run Env.legacyBrowser fresh [BindRef (Some 7); Mounted])
  = {| addImage := true; showImage := true;
       placeholderOpacity := 0; imageOpacity := 1 |}.
Proof. reflexivity. Qed.

Example render_on_server :
  render Env.server fresh
  = {| addImage := false; showImage := false;
       placeholderOpacity := 1; imageOpacity := 0 |}.
Proof. reflexivity. Qed.

Example unmounted_then_reported :
  UseInView.inView
    (tracker
       (run Env.browser fresh
          [BindRef (Some 7); Mounted; BeforeUnmount;
           Intersection [entry 7 true]]))
  = false.
Proof. reflexivity. Qed.

Example callback_on_no_entries :
  UseInView.callback (tracker fresh) [] = Js.ThrowTypeError.
Proof. reflexivity. Qed.
End Lifecycle.

(** * Further properties of the strategies, the tracker and [setup] *)

Section StrategyOrder.
Variable g : Env.Global.

(** Both strategies grow with the two latches. *)
Lemma strategies_monotone (s s' : Strategy.State) :
  Strategy.lazyLoad s = Strategy.lazyLoad s' ->
  latched (Strategy.inView s) (Strategy.inView s') ->
  latched (Strategy.loaded s) (Strategy.loaded s') ->
  latched (Strategy.imageAddStrategy g s) (Strategy.imageAddStrategy g s') /\
  latched (Strategy.imageShowStrategy g s) (Strategy.imageShowStrategy g s').
Proof.
  unfold Strategy.imageAddStrategy, Strategy.imageShowStrategy, latched.
  intros <-.
  destruct (Js.not (Js.ofBoolean (Strategy.lazyLoad s))),
           (Env.isSsr g), (Env.isIntersectionObserverAvailable g),
           (Strategy.inView s), (Strategy.loaded s);
    cbn; intros Hv Hl; rewrite ?Hv, ?Hl; cbn;
    rewrite ?orb_true_r; auto.
Qed.

Lemma step_props (i : Image.Instance) (e : Image.Event) :
  Image.instanceProps (Image.step g i e) = Image.instanceProps i.
Proof.
  destruct e; cbn; try reflexivity.
  destruct (UseInView.callback (Image.tracker i) entries); reflexivity.
Qed.

Lemma run_props (es : list Image.Event) :
  forall i : Image.Instance,
    Image.instanceProps (Image.run g i es) = Image.instanceProps i.
Proof.
  induction es as [|e es IH]; intros i; [reflexivity|].
  cbn. unfold Image.run in IH. now rewrite IH, step_props.
Qed.
End StrategyOrder.

(** X1. Whenever [imageShowStrategy] says the image is to be shown,
    [imageAddStrategy] says it is in the tree: no environment and no state
    asks for an image that is visible but not mounted. *)
Theorem show_implies_add (g : Env.Global) (s : Strategy.State) :
  Strategy.imageShowStrategy g s = true ->
  Strategy.imageAddStrategy g s = true.
Proof.
  unfold Strategy.imageShowStrategy, Strategy.imageAddStrategy.
  destruct (Js.not (Js.ofBoolean (Strategy.lazyLoad s))); [trivial|].
  destruct (Env.isSsr g); [trivial|].
  destruct (Env.isIntersectionObserverAvailable g); [|trivial].
  intros ->. apply orb_true_r.
Qed.

Lemma show_implies_add_witness :
  Strategy.imageShowStrategy Env.browser (lazyState false true) = true /\
  Strategy.imageAddStrategy Env.browser (lazyState false true) = true.
Proof.
  exact (conj eq_refl
           (show_implies_add Env.browser (lazyState false true) eq_refl)).
Defined.

(** X2. Along every sequence of events the two decisions of [render] only
    go from false to true: a picture that has been put in the tree is
    never taken out again, and an image that has been shown is never
    hidden again. *)
Theorem render_decisions_latched (g : Env.Global) (i : Image.Instance)
    (es : list Image.Event) :
  latched (Image.addImage (Image.render g i))
          (Image.addImage (Image.render g (Image.run g i es))) /\
  latched (Image.showImage (Image.render g i))
          (Image.showImage (Image.render g (Image.run g i es))).
Proof.
  destruct (run_latched g es i) as [Hv Hl].
  apply strategies_monotone; cbn.
  - now rewrite run_props.
  - exact Hv.
  - exact Hl.
Qed.

(** X3. The unmount hook is idempotent, does nothing to a tracker that
    was never mounted, and never writes [inView]. *)
Theorem unmount_idempotent (g : Env.Global) (r : UseInView.Refs)
    (i : Observer.Init) (el : option Observer.Element) :
  UseInView.onBeforeUnmount g (UseInView.onBeforeUnmount g r)
    = UseInView.onBeforeUnmount g r /\
  UseInView.onBeforeUnmount g (freshTracker i el) = freshTracker i el /\
  UseInView.inView (UseInView.onBeforeUnmount g r) = UseInView.inView r.
Proof.
  repeat apply conj.
  - unfold UseInView.onBeforeUnmount.
    destruct (Env.isIntersectionObserverAvailable g); [|reflexivity].
    destruct (UseInView.observer r) as [o|] eqn:E; cbn;
      [reflexivity | now rewrite E].
  - unfold UseInView.onBeforeUnmount.
    destruct (Env.isIntersectionObserverAvailable g); reflexivity.
  - apply onBeforeUnmount_inView.
Qed.

Section WithoutObserver.
Variable g : Env.Global.
Hypothesis unavailable : Env.isIntersectionObserverAvailable g = false.

Lemma step_without_observer (i : Image.Instance) (e : Image.Event) :
  UseInView.observer (Image.tracker i) = None ->
  UseInView.inView (Image.tracker i) = false ->
  UseInView.observer (Image.tracker (Image.step g i e)) = None /\
  UseInView.inView (Image.tracker (Image.step g i e)) = false.
Proof.
  intros Ho Hv.
  destruct e as [el| | |changes|entries| |]; cbn; auto.
  - unfold UseInView.onMounted. rewrite unavailable. auto.
  - unfold UseInView.onBeforeUnmount. rewrite unavailable. auto.
  - unfold UseInView.notify. rewrite Ho. auto.
  - unfold UseInView.callback. rewrite Ho.
    destruct entries as [|image rest]; [auto|].
    destruct (Observer.isIntersecting image); auto.
Qed.

Lemma run_without_observer (es : list Image.Event) :
  forall i : Image.Instance,
    UseInView.observer (Image.tracker i) = None ->
    UseInView.inView (Image.tracker i) = false ->
    UseInView.observer (Image.tracker (Image.run g i es)) = None /\
    UseInView.inView (Image.tracker (Image.run g i es)) = false.
Proof.
  induction es as [|e es IH]; intros i Ho Hv; [auto|].
  destruct (step_without_observer i e Ho Hv) as [Ho' Hv'].
  exact (IH _ Ho' Hv').
Qed.
End WithoutObserver.

(** X4. Where the observer is not available (on the server, or in a
    browser without the API) no observer is ever created and [inView]
    never becomes true, whatever events reach the component, runs of the
    callback included. *)
Theorem never_in_view_without_observer (g : Env.Global) (p : Image.Props)
    (es : list Image.Event) :
  Env.isIntersectionObserverAvailable g = false ->
  UseInView.observer (Image.tracker (Image.run g (Image.setup p) es)) = None /\
  UseInView.inView (Image.tracker (Image.run g (Image.setup p) es)) = false.
Proof.
  intros Ha. apply run_without_observer; [exact Ha | reflexivity..].
Qed.

Lemma never_in_view_without_observer_witness :
  Env.isIntersectionObserverAvailable Env.legacyBrowser = false /\
  UseInView.inView
    (Image.tracker
       (Image.run Env.legacyBrowser fresh
          [Image.BindRef (Some 7); Image.Mounted;
           Image.Intersection [entry 7 true];
           Image.Callback [entry 7 true]])) = false.
Proof.
  exact (conj eq_refl
           (proj2 (never_in_view_without_observer Env.legacyBrowser
                     (Image.props (thresholdAttrs None None))
                     [Image.BindRef (Some 7); Image.Mounted;
                      Image.Intersection [entry 7 true];
                      Image.Callback [entry 7 true]]
                     eq_refl))).
Defined.

Section Reports.
Import Observer UseInView.
Variable g : Env.Global.
Hypothesis available : Env.isIntersectionObserverAvailable g = true.
Variable i : Init.
Variable el : Element.

Lemma mounted_observer :
  observer (mountedTracker g i (Some el)) = Some (observe el (create i)).
Proof.
  unfold mountedTracker, onMounted. now rewrite available.
Qed.

Lemma observes_mounted (x : Element) :
  observes (observe el (create i)) x = Nat.eqb x el.
Proof.
  unfold observe, observes. cbn. apply orb_false_r.
Qed.

(** The host skips the entries about other elements. *)
Lemma queued_skip (pre tl : list Entry) :
  silentAbout el pre = true ->
  queued (observe el (create i)) (pre ++ tl)
  = queued (observe el (create i)) tl.
Proof.
  unfold queued, silentAbout. induction pre as [|x pre IH]; [reflexivity|].
  cbn [forallb app filter]. intros H. apply andb_true_iff in H as [Hx Hp].
  rewrite observes_mounted. apply negb_true_iff in Hx. rewrite Hx.
  exact (IH Hp).
Qed.

Lemma queued_head (e : Entry) (tl : list Entry) :
  target e = el ->
  queued (observe el (create i)) (e :: tl)
  = e :: queued (observe el (create i)) tl.
Proof.
  intros He. unfold queued. cbn [filter].
  now rewrite observes_mounted, He, PeanoNat.Nat.eqb_refl.
Qed.

(** What a report does to a mounted tracker is decided by the first
    entry about its element. *)
Lemma notify_mounted (pre : list Entry) (e : Entry) (rest : list Entry) :
  silentAbout el pre = true ->
  target e = el ->
  notify (mountedTracker g i (Some el)) (pre ++ e :: rest)
  = if isIntersecting e
    then setObserver (Some (disconnect (observe el (create i))))
           (setInView true (mountedTracker g i (Some el)))
    else mountedTracker g i (Some el).
Proof.
  intros Hp He. unfold notify. rewrite mounted_observer.
  rewrite (queued_skip _ _ Hp), (queued_head _ _ He).
  unfold callback. rewrite mounted_observer.
  destruct (isIntersecting e); reflexivity.
Qed.
End Reports.

(** X5. A report is judged on its first entry about the observed element
    alone: when that entry is not intersecting the tracker is left as it
    was and [inView] stays false, even if later entries of the same
    report are intersecting. *)
Theorem report_judged_on_first_entry (g : Env.Global) (i : Observer.Init)
    (el : Observer.Element) (pre : list Observer.Entry)
    (e : Observer.Entry) (rest : list Observer.Entry) :
  Env.isIntersectionObserverAvailable g = true ->
  silentAbout el pre = true ->
  Observer.target e = el ->
  Observer.isIntersecting e = false ->
  UseInView.notify (mountedTracker g i (Some el)) (pre ++ e :: rest)
    = mountedTracker g i (Some el) /\
  UseInView.inView
    (UseInView.notify (mountedTracker g i (Some el)) (pre ++ e :: rest))
    = false.
Proof.
  intros Ha Hp He Hi.
  rewrite (notify_mounted g Ha i el pre e rest Hp He), Hi.
  split; [reflexivity|].
  unfold mountedTracker. now rewrite onMounted_inView.
Qed.

Lemma report_judged_on_first_entry_witness :
  Env.isIntersectionObserverAvailable Env.browser = true /\
  silentAbout 7 [entry 8 true] = true /\
  Observer.target (entry 7 false) = 7 /\
  Observer.isIntersecting (entry 7 false) = false /\
  UseInView.inView
    (UseInView.notify (mountedTracker Env.browser defaultInit (Some 7))
       ([entry 8 true] ++ entry 7 false :: [entry 7 true]))
    = false.
Proof.
  refine (conj eq_refl (conj eq_refl (conj eq_refl (conj eq_refl _)))).
  exact (proj2 (report_judged_on_first_entry Env.browser defaultInit 7
                  [entry 8 true] (entry 7 false) [entry 7 true]
                  eq_refl eq_refl eq_refl eq_refl)).
Defined.

Section LazyViews.
Variable g : Env.Global.
Hypothesis available : Env.isIntersectionObserverAvailable g = true.

(** With the observer and lazy loading, [render] reads the two latches. *)
Lemma render_lazy (i : Image.Instance) :
  Image.lazyLoad (Image.instanceProps i) = true ->
  Image.render g i =
  match UseInView.inView (Image.tracker i), Image.loaded i with
  | _, true => viewShown
  | true, false => viewLoading
  | false, false => viewPlaceholder
  end.
Proof.
  intros Hl. unfold Image.render.
  rewrite imageAddStrategy_lazy, imageShowStrategy_lazy
    by (cbn; now rewrite Hl).
  rewrite (context_with_observer g available). cbn.
  destruct (UseInView.inView (Image.tracker i)), (Image.loaded i);
    reflexivity.
Qed.
End LazyViews.

(** X6. With the observer available and lazy loading left on, a component
    goes through three views: before its element is reported intersecting
    only the placeholder is rendered; the report puts the picture in the
    tree, still hidden behind the placeholder; the [load] event of the
    image then shows it and hides the placeholder. *)
Theorem lazy_image_lifecycle (g : Env.Global) (a : Image.Attrs)
    (el : Observer.Element) (pre : list Observer.Entry)
    (e : Observer.Entry) (rest : list Observer.Entry) :
  Env.isIntersectionObserverAvailable g = true ->
  Image.attrLazyLoad a = None \/ Image.attrLazyLoad a = Some true ->
  silentAbout el pre = true ->
  Observer.target e = el ->
  Observer.isIntersecting e = true ->
  Image.render g (Image.setup (Image.props a)) = viewPlaceholder /\
  Image.render g
    (Image.run g (Image.setup (Image.props a))
       [Image.BindRef (Some el); Image.Mounted]) = viewPlaceholder /\
  Image.render g
    (Image.run g (Image.setup (Image.props a))
       [Image.BindRef (Some el); Image.Mounted;
        Image.Intersection (pre ++ e :: rest)]) = viewLoading /\
  Image.render g
    (Image.run g (Image.setup (Image.props a))
       [Image.BindRef (Some el); Image.Mounted;
        Image.Intersection (pre ++ e :: rest); Image.Load]) = viewShown.
Proof.
  intros Ha Hl Hp He Hi.
  assert (Hlazy : Image.lazyLoad (Image.props a) = true).
  { cbn. destruct Hl as [-> | ->]; reflexivity. }
  set (i0 := Image.setup (Image.props a)).
  set (init := UseInView.init (Image.tracker i0)).
  pose proof (notify_mounted g Ha init el pre e rest Hp He) as Hn.
  rewrite Hi in Hn.
  repeat apply conj; rewrite (render_lazy g Ha) by (now rewrite ?run_props).
  - reflexivity.
  - cbn. now rewrite onMounted_inView.
  - cbn. change (UseInView.onMounted g _)
      with (mountedTracker g init (Some el)).
    now rewrite Hn.
  - cbn. change (UseInView.onMounted g _)
      with (mountedTracker g init (Some el)).
    now rewrite Hn.
Qed.

Lemma lazy_image_lifecycle_witness :
  Env.isIntersectionObserverAvailable Env.browser = true /\
  (Image.attrLazyLoad (thresholdAttrs None None) = None \/
   Image.attrLazyLoad (thresholdAttrs None None) = Some true) /\
  silentAbout 7 [entry 8 true] = true /\
  Observer.target (entry 7 true) = 7 /\
  Observer.isIntersecting (entry 7 true) = true /\
  Image.render Env.browser
    (Image.run Env.browser (Image.setup (Image.props (thresholdAttrs None None)))
       [Image.BindRef (Some 7); Image.Mounted;
        Image.Intersection ([entry 8 true] ++ entry 7 true :: []);
        Image.Load]) = viewShown.
Proof.
  refine (conj eq_refl (conj (or_introl eq_refl)
            (conj eq_refl (conj eq_refl (conj eq_refl _))))).
  exact (proj2 (proj2 (proj2
           (lazy_image_lifecycle Env.browser (thresholdAttrs None None) 7
              [entry 8 true] (entry 7 true) []
              eq_refl (or_introl eq_refl) eq_refl eq_refl eq_refl)))).
Defined.

(** X7. Whatever the two threshold props are, the threshold handed to
    [useInView] is a number and is not NaN: it is [intersectionThreshold]
    when that prop is neither left out, zero nor NaN; otherwise it is
    [intersectionTreshold] when that one is neither zero nor NaN; and
    otherwise it is the final [0]. *)
Theorem threshold_is_a_number (p : Image.Props) :
  exists x : float,
    Observer.threshold (UseInView.init (Image.tracker (Image.setup p)))
      = Js.Number x /\
    is_nan x = false /\
    ((Image.intersectionThreshold p = Some x /\
      Js.truthy (Js.Number x) = true) \/
     (Js.truthy (Js.ofNumber (Image.intersectionThreshold p)) = false /\
      x = Image.intersectionTreshold p /\
      Js.truthy (Js.Number x) = true) \/
     (Js.truthy (Js.ofNumber (Image.intersectionThreshold p)) = false /\
      Js.truthy (Js.Number (Image.intersectionTreshold p)) = false /\
      x = 0%float)).
Proof.
  cbn -[Js.or Js.truthy].
  destruct (Js.truthy (Js.ofNumber (Image.intersectionThreshold p))) eqn:E1.
  - rewrite !or_truthy by (rewrite ?or_truthy; assumption).
    destruct (Image.intersectionThreshold p) as [x|]; [|discriminate E1].
    exists x. split; [reflexivity|]. split.
    + now apply truthy_number in E1.
    + left. now split.
  - rewrite (or_falsy _ _ E1).
    destruct (Js.truthy (Js.Number (Image.intersectionTreshold p))) eqn:E2.
    + rewrite (or_truthy _ _ E2). eexists. split; [reflexivity|]. split.
      * now apply truthy_number in E2.
      * right. left. now repeat split.
    + rewrite (or_falsy _ _ E2). exists 0%float.
      split; [reflexivity|]. split; [reflexivity|].
      right. right. now repeat split.
Qed.

(** X8. The margin handed to [useInView] is never the empty string: it is
    the [intersectionMargin] prop when that is a non-empty string, and
    ["0px 0px 0px 0px"] when the prop is left out or is empty. *)
Theorem rootMargin_never_empty (a : Image.Attrs) :
  exists s : string,
    Observer.rootMargin
      (UseInView.init (Image.tracker (Image.setup (Image.props a))))
      = Js.Str s /\
    Js.isEmpty s = false /\
    (forall m, Image.attrIntersectionMargin a = Some m ->
               Js.isEmpty m = false -> s = m) /\
    (Image.attrIntersectionMargin a = None \/
     Image.attrIntersectionMargin a = Some EmptyString ->
     s = "0px 0px 0px 0px"%string).
Proof.
  cbn -[Js.or]. unfold Js.or, Js.truthy.
  destruct (Image.attrIntersectionMargin a) as [m|]; cbn.
  - destruct m as [|c m]; cbn.
    + eexists. split; [reflexivity|]. split; [reflexivity|].
      split; [|reflexivity]. intros m [= <-]. discriminate.
    + eexists. split; [reflexivity|]. split; [reflexivity|].
      split; [now intros m' [= <-]|]. intros [[=]|[=]].
  - eexists. split; [reflexivity|]. split; [reflexivity|].
    split; [intros m [=]|reflexivity].
Qed.

(** * Objects *)

Section ObjFacts.
Import Obj.

Lemma get_set (k k' : string) (v : Val) (o : Fields) :
  get k (set k' v o) = if String.eqb k k' then Some v else get k o.
Proof.
  induction o as [|[k0 v0] o IH]; cbn.
  - reflexivity.
  - destruct (String.eqb k' k0) eqn:E0; cbn.
    + apply String.eqb_eq in E0. subst k0.
      destruct (String.eqb k k'); reflexivity.
    + rewrite IH. destruct (String.eqb k k0) eqn:E1; [|reflexivity].
      apply String.eqb_eq in E1. subst k0.
      destruct (String.eqb k k') eqn:E2; [|reflexivity].
      apply String.eqb_eq in E2. subst k'.
      rewrite String.eqb_refl in E0. discriminate.
Qed.

Lemma get_app (k : string) (a b : Fields) :
  get k (a ++ b) = orElse (get k a) (get k b).
Proof.
  induction a as [|[k0 v0] a IH]; cbn; [reflexivity|].
  destruct (String.eqb k k0); [reflexivity | exact IH].
Qed.

(** Reading a key after a spread: the last entry of the source for that
    key, and the target when the source has none. *)
Lemma get_assign (k : string) (source : Fields) :
  forall target : Fields,
    get k (assign target source) = orElse (last k source) (get k target).
Proof.
  unfold assign, last.
  induction source as [|[k1 v1] s IH]; intros t; cbn [fold_left rev].
  - reflexivity.
  - rewrite IH, get_app, get_set. cbn.
    destruct (get k (rev s)); [reflexivity|]. cbn.
    destruct (String.eqb k k1); reflexivity.
Qed.

Lemma keys_set (k k' : string) (v : Val) (o : Fields) :
  In k (keys (set k' v o)) <-> k = k' \/ In k (keys o).
Proof.
  unfold keys. induction o as [|[k0 v0] o IH]; cbn.
  - intuition.
  - destruct (String.eqb k' k0) eqn:E; cbn.
    + apply String.eqb_eq in E. subst k0. intuition.
    + rewrite IH. intuition.
Qed.

Lemma set_nodup (k : string) (v : Val) (o : Fields) :
  NoDup (keys o) -> NoDup (keys (set k v o)).
Proof.
  unfold keys. induction o as [|[k0 v0] o IH]; cbn; intros H.
  - constructor; [intros []|constructor].
  - inversion H as [|? ? Hn Ho]; subst.
    destruct (String.eqb k k0) eqn:E; cbn.
    + apply String.eqb_eq in E. subst k0. now constructor.
    + constructor; [|exact (IH Ho)].
      intros Hin. apply (keys_set k0 k v o) in Hin as [->|Hin].
      * rewrite String.eqb_refl in E. discriminate.
      * exact (Hn Hin).
Qed.

Lemma assign_nodup (source : Fields) :
  forall target : Fields,
    NoDup (keys target) -> NoDup (keys (assign target source)).
Proof.
  unfold assign. induction source as [|[k v] s IH]; intros t Ht; cbn.
  - exact Ht.
  - apply IH. now apply set_nodup.
Qed.

Lemma get_none (k : string) (o : Fields) :
  get k o = None <-> ~ In k (keys o).
Proof.
  unfold keys. induction o as [|[k0 v0] o IH]; cbn.
  - intuition.
  - destruct (String.eqb k k0) eqn:E.
    + apply String.eqb_eq in E. subst k0. split; [discriminate|].
      intros H. exfalso. apply H. now left.
    + apply String.eqb_neq in E. rewrite IH. intuition congruence.
Qed.

(** In an object (no key twice) the last entry for a key is the only
    one. *)
Lemma last_nodup (k : string) (o : Fields) :
  NoDup (keys o) -> last k o = get k o.
Proof.
  unfold last, keys. induction o as [|[k0 v0] o IH]; cbn; intros H.
  - reflexivity.
  - inversion H as [|? ? Hn Ho]; subst.
    rewrite get_app. cbn. destruct (String.eqb k k0) eqn:E.
    + apply String.eqb_eq in E. subst k0.
      assert (Hr : get k (rev o) = None).
      { apply get_none. unfold keys. rewrite map_rev.
        intros Hin. apply in_rev in Hin. exact (Hn Hin). }
      now rewrite Hr.
    + rewrite (IH Ho). destruct (get k o); reflexivity.
Qed.

Lemma last_remove (k k' : string) (o : Fields) :
  last k (remove k' o) = if String.eqb k k' then None else last k o.
Proof.
  unfold last. induction o as [|[k0 v0] o IH]; cbn.
  - destruct (String.eqb k k'); reflexivity.
  - destruct (String.eqb k' k0) eqn:E0.
    + rewrite IH, get_app. cbn.
      destruct (String.eqb k k') eqn:E1; [|].
      * reflexivity.
      * apply String.eqb_eq in E0. subst k0. rewrite E1.
        destruct (get k (rev o)); reflexivity.
    + cbn. rewrite !get_app, IH. cbn.
      destruct (String.eqb k k') eqn:E1; [|reflexivity].
      apply String.eqb_eq in E1. subst k'.
      now rewrite E0.
Qed.
End ObjFacts.

(** * The [h] adapter *)

Section AdapterFacts.
Import Obj.
Variable host : VNode.Host.

Lemma last_cons (k : string) (kv : string * Val) (l : Fields) :
  last k (kv :: l)
  = orElse (last k l) (if String.eqb k (fst kv) then Some (snd kv) else None).
Proof.
  unfold last. cbn [rev]. rewrite get_app. destruct kv as [k1 v1]. reflexivity.
Qed.

(** The object the [reduce] over the listeners builds, from any object
    it starts with. *)
Lemma listeners_fold (es : Fields) :
  forall acc : Fields,
    NoDup (keys acc) ->
    exists r : Fields,
      fold_left
        (fun a kv =>
           literal [Spread a;
                    Field (VNode.listenerName host (fst kv)) (snd kv)])
        es (Obj acc) = Obj r /\
      NoDup (keys r) /\
      forall k,
        get k r
        = orElse
            (last k (map (fun kv => (VNode.listenerName host (fst kv), snd kv))
                         es))
            (get k acc).
Proof.
  induction es as [|[k1 v1] es IH]; intros acc Hacc.
  - exists acc. repeat split; assumption || reflexivity.
  - cbn [fold_left map fst snd].
    change (literal [Spread (Obj acc);
                     Field (VNode.listenerName host k1) v1])
      with (Obj (set (VNode.listenerName host k1) v1 (assign [] acc))).
    assert (Hn : NoDup (keys (set (VNode.listenerName host k1) v1
                                (assign [] acc)))).
    { apply set_nodup, assign_nodup. constructor. }
    destruct (IH _ Hn) as [r [Hr [Hd Hg]]].
    exists r. split; [exact Hr|]. split; [exact Hd|].
    intros k. rewrite Hg, last_cons, get_set, get_assign. cbn [fst snd get].
    rewrite (last_nodup k acc Hacc).
    destruct (last k _); [reflexivity|]. cbn [orElse].
    destruct (String.eqb k (VNode.listenerName host k1)); [reflexivity|].
    destruct (get k acc); reflexivity.
Qed.

Lemma listeners_get (on : Val) :
  exists r : Fields,
    VNode.listeners host on = Obj r /\
    NoDup (keys r) /\
    forall k, get k r = last k (renamed host on).
Proof.
  destruct (listeners_fold (entries (or on (Obj []))) [] (NoDup_nil _))
    as [r [Hr [Hd Hg]]].
  exists r. split; [exact Hr|]. split; [exact Hd|].
  intros k. rewrite Hg. unfold renamed. cbn.
  destruct (last k _); reflexivity.
Qed.
End AdapterFacts.

(** X9. Under Vue 3, [h] hands [rawH] one flat object made of the data
    without its [attrs] and [on] keys, the attributes and the listeners
    (each under [on] followed by its capitalised name): on a clash a
    listener wins over an attribute, and an attribute over a key of the
    data.  The tag and the rest arguments go through as they are. *)
Theorem h_vue3_flattens (host : VNode.Host) (tag : string)
    (f : Obj.Fields) (rest : list (list VNode.Node)) :
  VNode.isVue3 host = true ->
  exists r : Obj.Fields,
    VNode.h host tag (Obj.Obj f) rest = VNode.RawH tag (Obj.Obj r) rest /\
    forall k : string,
      Obj.get k r
      = orElse (Obj.last k (renamed host (Obj.prop "on" (Obj.Obj f))))
          (orElse (Obj.last k (Obj.entries (Obj.prop "attrs" (Obj.Obj f))))
             (if (String.eqb k "attrs" || String.eqb k "on")%bool
              then None
              else Obj.last k f)).
Proof.
  intros Hv.
  destruct (listeners_get host (Obj.prop "on" (Obj.Obj f)))
    as [l [Hl [Hd Hg]]].
  exists (assign
            (assign
               (assign [] (Obj.remove "on" (Obj.remove "attrs" f)))
               (Obj.entries (Obj.prop "attrs" (Obj.Obj f))))
            l).
  split.
  - unfold VNode.h, VNode.vue3Data. rewrite Hv. cbn [Obj.truthy].
    cbv zeta. rewrite Hl. reflexivity.
  - intros k. rewrite !get_assign. cbn [Obj.get].
    rewrite (last_nodup k l Hd), Hg, !last_remove.
    destruct (Obj.last k (renamed host _)); [reflexivity|]. cbn.
    destruct (Obj.last k (Obj.entries _)); [reflexivity|]. cbn.
    destruct (String.eqb k "on"), (String.eqb k "attrs");
      cbn; try reflexivity; destruct (Obj.last k f); reflexivity.
Qed.

Lemma h_vue3_flattens_witness :
  VNode.isVue3 (sampleHost true) = true /\
  exists r : Obj.Fields,
    VNode.h (sampleHost true) "img" (Obj.Obj sampleData) []
      = VNode.RawH "img" (Obj.Obj r) [] /\
    Obj.get "onLoad" r = Some (Obj.Fn "handleLoad") /\
    Obj.get "src" r = Some (Obj.Str "a.png") /\
    Obj.get "class" r = Some (Obj.Str "photo") /\
    Obj.get "attrs" r = None.
Proof.
  split; [reflexivity|].
  destruct (h_vue3_flattens (sampleHost true) "img" sampleData [] eq_refl)
    as [r [Hr Hg]].
  exists r. split; [exact Hr|].
  repeat apply conj; rewrite Hg; reflexivity.
Defined.

(** X10. Under Vue 3 the image that is loaded lazily reaches [rawH] with
    its class and style, its [src], [alt] and [title] as top-level
    attributes, and [handleLoad] under the listener name of [load], which
    is [onLoad] as soon as the host upper-cases [l] to [L]; no [attrs]
    and no [on] key is left. *)
Theorem image_data_vue3 (g : Env.Global) (host : VNode.Host)
    (i : Image.Instance) (p : Render.Props) :
  VNode.isVue3 host = true ->
  VNode.h host "img" (Render.imageData g host i p) []
  = VNode.RawH "img"
      (Obj.Obj
         [("class"%string, Obj.ofString (Render.pictureClass p));
          ("style"%string, Obj.prop "style" (Render.imageData g host i p));
          ("src"%string, Obj.ofString (Render.src (Render.data p)));
          ("alt"%string, Obj.ofString (Render.alt (Render.data p)));
          ("title"%string, Obj.ofString (Render.title (Render.data p)));
          (VNode.listenerName host "load", Obj.Fn "handleLoad")])
      [] /\
  (VNode.toUpperCase host "l" = "L"%string ->
   VNode.listenerName host "load" = "onLoad"%string).
Proof.
  intros Hv. split.
  - unfold VNode.h. rewrite Hv. reflexivity.
  - intros Hu. unfold VNode.listenerName. cbn. now rewrite Hu.
Qed.

Lemma image_data_vue3_witness :
  VNode.isVue3 (sampleHost true) = true /\
  VNode.toUpperCase (sampleHost true) "l" = "L"%string /\
  VNode.listenerName (sampleHost true) "load" = "onLoad"%string.
Proof.
  refine (conj eq_refl (conj eq_refl _)).
  exact (proj2 (image_data_vue3 Env.browser (sampleHost true) fresh
                  (sampleProps [] None) eq_refl) eq_refl).
Defined.

Section StyleFacts.
Import Obj.
Variable g : Env.Global.
Variable host : VNode.Host.
Variable i : Image.Instance.
Variable p : Render.Props.

Lemma styleOf_lazyImage :
  styleOf (lazyImage g host i p)
  = set "transition" (Render.transition host p)
      (set "opacity" (Num (if Render.showImage g i then 1 else 0)%float)
         (assign (assign [] (entries Render.absolutePositioning))
                 (Render.pictureStyle p))).
Proof.
  unfold styleOf, lazyImage, VNode.h.
  destruct (VNode.isVue3 host); reflexivity.
Qed.

Lemma styleOf_fallbackImage :
  styleOf (fallbackImage host p)
  = assign (assign [] (Render.pictureStyle p))
           (entries Render.absolutePositioning).
Proof.
  unfold styleOf, fallbackImage, VNode.h.
  destruct (VNode.isVue3 host); reflexivity.
Qed.

Lemma styleOf_sizer :
  styleOf (Render.sizer g host p)
  = assign
      [("display"%string, Str "block");
       ("width"%string,
        if Render.explicitWidth p
        then Str (VNode.numberToString host (Render.width (Render.data p))
                  ++ "px")
        else Str "100%")]
      (Render.pictureStyle p).
Proof.
  unfold styleOf, Render.sizer, VNode.h.
  destruct (VNode.isVue3 host); reflexivity.
Qed.

Lemma styleOf_placeholder :
  get "opacity" (styleOf (Render.placeholder g host i p))
  = Some (Num (if Render.showImage g i then 0 else 1)%float).
Proof.
  unfold styleOf, Render.placeholder, VNode.h.
  destruct (VNode.isVue3 host); reflexivity.
Qed.
End StyleFacts.

Lemma orElse_none (a : option Obj.Val) : orElse a None = a.
Proof. destruct a; reflexivity. Qed.

Lemma absolutePositioning_nodup :
  NoDup (keys (Obj.entries Render.absolutePositioning)).
Proof.
  cbn. repeat constructor; cbn; intuition discriminate.
Qed.

(** X11. What [pictureStyle] can restyle.  In the image that is loaded
    lazily it overrides the absolute positioning but never [opacity] and
    [transition], which [render] sets after it; in the image inside
    [noscript] the absolute positioning is spread last and wins over it;
    in the sizer it overrides [display] and [width]. *)
Theorem pictureStyle_precedence (g : Env.Global) (host : VNode.Host)
    (i : Image.Instance) (p : Render.Props) (k : string) :
  Obj.get k (styleOf (lazyImage g host i p))
  = (if String.eqb k "transition" then Some (Render.transition host p)
     else if String.eqb k "opacity"
          then Some (Obj.Num (if Render.showImage g i then 1 else 0)%float)
     else orElse (Obj.last k (Render.pictureStyle p))
                 (Obj.get k (Obj.entries Render.absolutePositioning))) /\
  Obj.get k (styleOf (fallbackImage host p))
  = orElse (Obj.get k (Obj.entries Render.absolutePositioning))
           (Obj.last k (Render.pictureStyle p)) /\
  Obj.get k (styleOf (Render.sizer g host p))
  = orElse (Obj.last k (Render.pictureStyle p))
      (Obj.get k
         [("display"%string, Obj.Str "block");
          ("width"%string,
           if Render.explicitWidth p
           then Obj.Str (VNode.numberToString host
                           (Render.width (Render.data p)) ++ "px")
           else Obj.Str "100%")]).
Proof.
  repeat apply conj.
  - rewrite styleOf_lazyImage, !get_set, !get_assign.
    rewrite (last_nodup k _ absolutePositioning_nodup).
    cbn [Obj.get]. now rewrite orElse_none.
  - rewrite styleOf_fallbackImage, !get_assign.
    rewrite (last_nodup k _ absolutePositioning_nodup).
    cbn [Obj.get]. now rewrite orElse_none.
  - rewrite styleOf_sizer, get_assign. reflexivity.
Qed.

(** * The fade-in transition *)

Section Positive.
Import FloatOps FloatAxioms SpecFloat.

(** A number above zero is neither zero nor NaN. *)
Lemma positive_truthy (x : float) :
  (0 <? x)%float = true -> Obj.truthy (Obj.Num x) = true.
Proof.
  intros H. cbn [Obj.truthy]. unfold is_zero, is_nan.
  rewrite ltb_spec in H. rewrite !eqb_spec.
  change (Prim2SF 0%float) with (S754_zero false) in H.
  change (Prim2SF zero) with (S754_zero false).
  destruct (Prim2SF x) as [s|s| |s m e]; cbn in H |- *;
    try discriminate H.
  - destruct s; [discriminate H | reflexivity].
  - destruct s; [discriminate H|].
    unfold SFeqb, SFcompare.
    rewrite BinInt.Z.compare_refl, BinPos.Pos.compare_cont_refl.
    reflexivity.
Qed.
End Positive.

(** X12. The fade-in transition is [undefined] exactly when
    [fadeInDuration] is given and is not above zero (zero, negative or
    NaN).  Left out, it is [opacity 500ms 500ms]; above zero, the duration
    itself is used for both the duration and the delay, so the [500] of
    [fadeInDuration || 500] only ever stands in for a prop that is left
    out. *)
Theorem transition_cases (host : VNode.Host) (p : Render.Props) :
  match Render.fadeInDuration p with
  | None =>
      Render.transition host p
      = Obj.Str ("opacity " ++ VNode.numberToString host 500%float ++ "ms "
                 ++ VNode.numberToString host 500%float ++ "ms")
  | Some x =>
      if (0 <? x)%float
      then Render.transition host p
           = Obj.Str ("opacity " ++ VNode.numberToString host x ++ "ms "
                      ++ VNode.numberToString host x ++ "ms")
      else Render.transition host p = Obj.Undefined
  end.
Proof.
  unfold Render.transition.
  destruct (Render.fadeInDuration p) as [x|]; [|reflexivity].
  destruct (0 <? x)%float eqn:E; [|reflexivity].
  unfold Obj.orNumber. now rewrite (positive_truthy x E).
Qed.

Lemma rootMargin_never_empty_witness :
  Image.attrIntersectionMargin (marginAttrs (Some "10px"%string))
    = Some "10px"%string /\
  Js.isEmpty "10px" = false /\
  exists s : string,
    Observer.rootMargin
      (UseInView.init
         (Image.tracker
            (Image.setup (Image.props (marginAttrs (Some "10px"%string))))))
      = Js.Str s /\
    s = "10px"%string.
Proof.
  refine (conj eq_refl (conj eq_refl _)).
  destruct (rootMargin_never_empty (marginAttrs (Some "10px"%string)))
    as [s [Hs [_ [Hm _]]]].
  exists s. exact (conj Hs (Hm "10px"%string eq_refl eq_refl)).
Defined.

(** * The tree and the decisions *)

(** X13. The tree [render] returns follows the two decisions, under
    Vue 2 and under Vue 3 alike: its children are the sizer, the
    placeholder, the picture when [imageAddStrategy] holds and [false]
    otherwise, and the [noscript] fallback, which is always there; the
    picture holds its image only when [src] is a non-empty string; the
    placeholder has opacity 0 and the image opacity 1 when
    [imageShowStrategy] holds, and the other way round when it does
    not. *)
Theorem tree_follows_decisions (g : Env.Global) (host : VNode.Host)
    (i : Image.Instance) (p : Render.Props) :
  Render.children (Render.render g host i p)
  = [Render.sizer g host p;
     Render.placeholder g host i p;
     if Image.addImage (Image.render g i)
     then Render.picture g host i p
     else VNode.NotRendered (Obj.Bool false);
     Render.noscript host p] /\
  Render.children (Render.picture g host i p)
  = [Render.webpSource host p;
     Render.regularSource host p;
     if Obj.truthy (Obj.ofString (Render.src (Render.data p)))
     then lazyImage g host i p
     else VNode.NotRendered (Obj.ofString (Render.src (Render.data p)))] /\
  Obj.get "opacity" (styleOf (Render.placeholder g host i p))
  = Some (Obj.Num (if Image.showImage (Image.render g i) then 0 else 1)%float)
  /\
  Obj.get "opacity" (styleOf (lazyImage g host i p))
  = Some (Obj.Num (if Image.showImage (Image.render g i) then 1 else 0)%float).
Proof.
  repeat apply conj.
  - unfold Render.render, VNode.h, VNode.and, Render.addImage.
    cbn [Image.render Image.addImage Obj.truthy].
    destruct (VNode.isVue3 host);
      destruct (Strategy.imageAddStrategy g (Image.state i)); reflexivity.
  - unfold Render.picture, lazyImage, VNode.and. unfold VNode.h.
    destruct (VNode.isVue3 host); reflexivity.
  - apply styleOf_placeholder.
  - rewrite styleOf_lazyImage, !get_set. reflexivity.
Qed.

(** * Data that [h] leaves alone *)

Section PlainData.
Import Obj.

Lemma set_fresh (k : string) (v : Val) (o : Fields) :
  ~ In k (keys o) -> set k v o = o ++ [(k, v)].
Proof.
  unfold keys. induction o as [|[k0 v0] o IH]; cbn; intros H.
  - reflexivity.
  - destruct (String.eqb k k0) eqn:E.
    + apply String.eqb_eq in E. subst k0. exfalso. apply H. now left.
    + rewrite IH; [reflexivity|]. intros Hin. apply H. now right.
Qed.

(** Copying an object gives the object back. *)
Lemma assign_app (s : Fields) :
  forall t : Fields, NoDup (keys (t ++ s)) -> assign t s = t ++ s.
Proof.
  unfold keys. induction s as [|[k v] s IH]; intros t H; cbn.
  - now rewrite app_nil_r.
  - assert (Hk : ~ In k (keys t)).
    { unfold keys. rewrite map_app in H. cbn in H.
      apply NoDup_remove_2 in H. intros Hin. apply H.
      apply in_or_app. now left. }
    rewrite (set_fresh k v t Hk).
    change (fold_left _ s (t ++ [(k, v)])) with (assign (t ++ [(k, v)]) s).
    rewrite IH; rewrite <- app_assoc; [reflexivity | exact H].
Qed.

Lemma remove_absent (k : string) (o : Fields) :
  get k o = None -> remove k o = o.
Proof.
  induction o as [|[k0 v0] o IH]; cbn; [reflexivity|].
  destruct (String.eqb k k0); [discriminate|].
  intros H. now rewrite IH.
Qed.
End PlainData.

(** X14. Data that has neither an [attrs] nor an [on] key goes through
    [h] unchanged, under Vue 3 as under Vue 2. *)
Theorem h_plain_data_unchanged (host : VNode.Host) (tag : string)
    (f : Obj.Fields) (rest : list (list VNode.Node)) :
  NoDup (keys f) ->
  Obj.get "attrs" f = None ->
  Obj.get "on" f = None ->
  VNode.h host tag (Obj.Obj f) rest = VNode.RawH tag (Obj.Obj f) rest.
Proof.
  intros Hd Ha Ho. unfold VNode.h.
  destruct (VNode.isVue3 host); [|reflexivity].
  unfold VNode.vue3Data, Obj.prop. cbn [Obj.truthy Obj.entries].
  rewrite Ha, Ho, (remove_absent "attrs" f Ha), (remove_absent "on" f Ho).
  cbv zeta.
  change (Obj.literal _) with (Obj.Obj (assign [] f)).
  now rewrite (assign_app f [] Hd).
Qed.

Lemma h_plain_data_unchanged_witness :
  NoDup (keys [("style"%string, Obj.Str "s")]) /\
  Obj.get "attrs" [("style"%string, Obj.Str "s")] = None /\
  Obj.get "on" [("style"%string, Obj.Str "s")] = None /\
  VNode.h (sampleHost true) "div" (Obj.Obj [("style"%string, Obj.Str "s")]) []
  = VNode.RawH "div" (Obj.Obj [("style"%string, Obj.Str "s")]) [].
Proof.
  assert (Hd : NoDup (keys [("style"%string, Obj.Str "s")])).
  { constructor; [intros [] | constructor]. }
  refine (conj Hd (conj eq_refl (conj eq_refl _))).
  exact (h_plain_data_unchanged (sampleHost true) "div"
           [("style"%string, Obj.Str "s")] [] Hd eq_refl eq_refl).
Defined.

(** X15. When no element is bound to [elRef] at the time the mount hook
    runs, the observer it creates observes nothing: no report from the host
    ever reaches the tracker, and [inView] stays false. *)
Theorem mounted_without_element (g : Env.Global) (i : Observer.Init)
    (batches : list (list Observer.Entry)) :
  silent (mountedTracker g i None) /\
  fold_left UseInView.notify batches (mountedTracker g i None)
    = mountedTracker g i None /\
  UseInView.inView
    (fold_left UseInView.notify batches (mountedTracker g i None)) = false.
Proof.
  assert (Hs : silent (mountedTracker g i None)).
  { unfold silent, mountedTracker, UseInView.onMounted.
    destruct (Env.isIntersectionObserverAvailable g); [reflexivity | exact I]. }
  rewrite (notify_all_silent _ batches Hs).
  repeat split; [exact Hs|].
  unfold mountedTracker. now rewrite onMounted_inView.
Qed.

(** X16. Three kinds of component render the same view all their life,
    whatever events reach them: with [lazyLoad] false the image is in the
    tree and shown; with lazy loading on the server only the placeholder
    is rendered; with lazy loading in a browser without the observer the
    image is in the tree and shown. *)
Theorem render_fixed_views (g : Env.Global) (a : Image.Attrs)
    (es : list Image.Event) :
  (Image.attrLazyLoad a = Some false ->
   Image.render g (Image.run g (Image.setup (Image.props a)) es)
     = viewShown) /\
  (Image.attrLazyLoad a <> Some false ->
   Env.isSsr g = true ->
   Image.render g (Image.run g (Image.setup (Image.props a)) es)
     = viewPlaceholder) /\
  (Image.attrLazyLoad a <> Some false ->
   Env.isSsr g = false ->
   Env.isIntersectionObserverAvailable g = false ->
   Image.render g (Image.run g (Image.setup (Image.props a)) es)
     = viewShown).
Proof.
  assert (Hl : Image.attrLazyLoad a <> Some false ->
               Image.lazyLoad (Image.props a) = true).
  { cbn. destruct (Image.attrLazyLoad a) as [[|]|]; intros H; cbn;
      congruence. }
  unfold Image.render, Strategy.imageAddStrategy, Strategy.imageShowStrategy.
  cbn [Image.state Strategy.lazyLoad]. rewrite run_props.
  cbn [Image.setup Image.instanceProps].
  repeat apply conj.
  - intros H. cbn. rewrite H. reflexivity.
  - intros H Hs. rewrite (Hl H), Hs. reflexivity.
  - intros H Hs Ha. rewrite (Hl H), Hs, Ha. reflexivity.
Qed.

Lemma render_fixed_views_witness :
  Image.attrLazyLoad (thresholdAttrs None None) <> Some false /\
  Env.isSsr Env.server = true /\
  Image.render Env.server
    (Image.run Env.server (Image.setup (Image.props (thresholdAttrs None None)))
       [Image.Load]) = viewPlaceholder.
Proof.
  assert (Hn : Image.attrLazyLoad (thresholdAttrs None None) <> Some false)
    by discriminate.
  refine (conj Hn (conj eq_refl _)).
  exact (proj1 (proj2 (render_fixed_views Env.server
                         (thresholdAttrs None None) [Image.Load]))
           Hn eq_refl).
Defined.

(** ** The tree on concrete inputs *)

Section TreeExamples.

Example transition_default :
  Render.transition (sampleHost true) (sampleProps [] None)
  = Obj.Str "opacity 500ms 500ms".
Proof. reflexivity. Qed.

Example transition_zero :
  Render.transition (sampleHost true) (sampleProps [] (Some 0%float))
  = Obj.Undefined.
Proof. reflexivity. Qed.

Example transition_nan :
  Render.transition (sampleHost true) (sampleProps [] (Some nan))
  = Obj.Undefined.
Proof. reflexivity. Qed.

Example picture_not_rendered_before_entering :
  nth 2 (Render.children
           (Render.render Env.browser (sampleHost true) fresh
              (sampleProps [] None)))
        (VNode.NotRendered Obj.Undefined)
  = VNode.NotRendered (Obj.Bool false).
Proof. reflexivity. Qed.

Example style_cannot_hide_loaded_image :
  Obj.get "opacity"
    (styleOf
       (lazyImage Env.browser (sampleHost false) (Image.handleLoad fresh)
          (sampleProps [("opacity"%string, Obj.Num 0%float)] None)))
  = Some (Obj.Num 1%float).
Proof. reflexivity. Qed.

Example fallback_positioning_wins :
  Obj.get "top"
    (styleOf
       (fallbackImage (sampleHost true)
          (sampleProps [("top"%string, Obj.Str "5px")] None)))
  = Some (Obj.Str "0px").
Proof. reflexivity. Qed.

Example listeners_last_wins :
  VNode.listeners (sampleHost true)
    (Obj.Obj [("load"%string, Obj.Fn "first");
              ("Load"%string, Obj.Fn "second")])
  = Obj.Obj [("onLoad"%string, Obj.Fn "second")].
Proof. reflexivity. Qed.

Example h_falsy_data :
  VNode.h (sampleHost true) "picture" Obj.Undefined []
  = VNode.RawH "picture" Obj.Null [].
Proof. reflexivity. Qed.
End TreeExamples.

(** ** Listener names on concrete keys *)

Section ListenerNames.

Example listenerName_accent :
  VNode.listenerName accentHost (eAcute ++ "a")
  = ("on" ++ eAcuteCapital ++ "a")%string.
Proof. reflexivity. Qed.

Example listenerName_three_bytes :
  VNode.listenerName accentHost (euro ++ "x") = ("on" ++ euro ++ "x")%string.
Proof. reflexivity. Qed.

Example listenerName_pair :
  VNode.listenerName accentHost (emoji ++ "a") = ("on" ++ emoji ++ "a")%string.
Proof. reflexivity. Qed.

Example listenerName_empty :
  VNode.listenerName accentHost EmptyString = "on"%string.
Proof. reflexivity. Qed.

Example listeners_accent :
  VNode.listeners accentHost
    (Obj.Obj [((eAcute ++ "a")%string, Obj.Fn "handler")])
  = Obj.Obj [(("on" ++ eAcuteCapital ++ "a")%string, Obj.Fn "handler")].
Proof. reflexivity. Qed.
End ListenerNames.

(** ** Spreading a string *)

Section StringEntries.

Example entries_ascii_string :
  Obj.entries (Obj.Str "ab")
  = [("0"%string, Obj.Str "a"); ("1"%string, Obj.Str "b")].
Proof. reflexivity. Qed.

Example entries_accent_string :
  Obj.entries (Obj.Str (eAcute ++ "a"))
  = [("0"%string, Obj.Str eAcute); ("1"%string, Obj.Str "a")].
Proof. reflexivity. Qed.

Example entries_pair_string :
  keys (Obj.entries (Obj.Str (emoji ++ euro)))
  = ["0"%string; "1"%string; "2"%string].
Proof. reflexivity. Qed.
End StringEntries.
